(** * Claim risk and repair-cost decision engine

    A shallow embedding of the decision logic of the insurance-claims
    application:

    - [scripts/ingest_kaggle_data.py]       ([generate_fraud_score_from_row])
    - [app/ui/claim_review_app.py]          ([calculate_fraud_realtime])
    - [app/services/ai/repair_rag_service.py]
                                            ([RepairKnowledgeBase.get_repair_context])
    - [app/services/damage/image_analyzer.py]
                                            ([DamageAssessmentService])
    - [app/services/ai/vision_analyzer.py]  ([VisionAnalyzer._aggregate_analyses])

    Conventions.  Python [float] amounts and scores are idealised as exact
    rationals ([Q]); every comparison of the source is kept as it is written.
    Python [int] table entries are [Z].  Nullable columns and optional
    dictionary keys are [option].  Strings are sequences of ASCII
    characters, which covers every damage-type name of the knowledge base
    and of the vision prompt.  An exception escaping a function is an
    explicit [Raise] result. *)

From Stdlib Require Import QArith ZArith List String Ascii Bool Lia.
From Stdlib Require Import Qminmax Lqa Permutation Sorted.
Import ListNotations.

Open Scope Q_scope.

Set Warnings "-register-all".

(* ------------------------------------------------------------------ *)
(** * Python preliminaries *)

Module Py.

(** Exceptions the modelled code can let escape. *)
Inductive Error : Set :=
| ZeroDivisionError
| TypeError
| KeyError
| AttributeError
| ValueError.

Inductive result (A : Type) : Type :=
| Ok (a : A)
| Raise (e : Error).
Arguments Ok {A} a.
Arguments Raise {A} e.

Definition bind {A B : Type} (m : result A) (k : A -> result B) : result B :=
  match m with
  | Ok a => k a
  | Raise e => Raise e
  end.

(** [x < y], [x > y], [x >= y] on numbers. *)
Definition lt (x y : Q) : bool := negb (Qle_bool y x).
Definition gt (x y : Q) : bool := lt y x.
Definition ge (x y : Q) : bool := Qle_bool y x.

(** [x / y]: true division raises on a zero divisor. *)
Definition div (x y : Q) : result Q :=
  if Qeq_bool y 0 then Raise ZeroDivisionError else Ok (x / y).

(** [min(x, y)] returns its first argument unless the second is smaller. *)
Definition min (x y : Q) : Q := if lt y x then y else x.

(** [max(x, y)] returns its first argument unless the second is larger. *)
Definition max (x y : Q) : Q := if gt y x then y else x.

(** [v or 0] on a nullable number: [None] and [0.0] are both falsy. *)
Definition or0 (v : option Q) : Q :=
  match v with
  | Some x => if Qeq_bool x 0 then 0 else x
  | None => 0
  end.

(** [sum(f(a) for a in l)]: left fold from the integer 0. *)
Definition sum {A : Type} (f : A -> Q) (l : list A) : Q :=
  fold_left (fun acc a => acc + f a) l 0.

End Py.

Notation "x <- m ;; k" := (Py.bind m (fun x => k))
  (at level 61, m at next level, right associativity).

(* ------------------------------------------------------------------ *)
(** * ASCII strings: [str.lower] and [str.replace] *)

Module Str.

Definition is_upper (c : ascii) : bool :=
  let n := nat_of_ascii c in (65 <=? n)%nat && (n <=? 90)%nat.

Definition lower_char (c : ascii) : ascii :=
  if is_upper c then ascii_of_nat (nat_of_ascii c + 32) else c.

(** [s.lower()] *)
Fixpoint lower (s : string) : string :=
  match s with
  | EmptyString => EmptyString
  | String c t => String (lower_char c) (lower t)
  end.

(** [s.replace(old, new)] for one-character [old] and [new], the only
    way the modelled code calls it. *)
Fixpoint replace (old new : ascii) (s : string) : string :=
  match s with
  | EmptyString => EmptyString
  | String c t =>
      String (if Ascii.eqb c old then new else c) (replace old new t)
  end.

(** [needle in s] *)
Fixpoint contains (needle s : string) : bool :=
  if String.prefix needle s then true
  else match s with
       | EmptyString => false
       | String _ t => contains needle t
       end.

End Str.

(* ------------------------------------------------------------------ *)
(** * Stored records ([app/models]) *)

Module Models.

(** [DamageType] and [DamageSeverity] of
    [app/models/damage_assessment.py]. *)
Inductive DamageType : Set :=
| SCRATCH | DENT | CRACK | BROKEN | SHATTERED | CRUSHED | BURNED
| WATER_DAMAGE | UNKNOWN.

Inductive DamageSeverity : Set :=
| MINOR | MODERATE | MAJOR | TOTAL_LOSS.

(** The columns of [DamageAssessment] the engine reads; all four are
    nullable ([scripts/assign_roboflow_images.py] stores rows that carry
    a file only). *)
Record DamageAssessment : Type := mkDamageAssessment {
  damage_type : option DamageType;
  severity : option DamageSeverity;
  estimated_cost_min : option Q;
  estimated_cost_max : option Q
}.

(** [FraudScore] of [app/models/fraud_score.py]. *)
Record FraudScore : Type := mkFraudScore {
  fraud_score : Q;
  ml_model_score : Q;
  graph_network_score : Q;
  pattern_matching_score : Q;
  fraud_flags : list string;
  risk_level : string;
  requires_investigation : bool
}.

(** [Claim.estimated_damage] and [Policy.coverage_limit], both
    non-nullable [Float] columns. *)
Record Claim : Type := mkClaim { estimated_damage : Q }.
Record Policy : Type := mkPolicy { coverage_limit : Q }.

End Models.

(* ------------------------------------------------------------------ *)
(** * [scripts/ingest_kaggle_data.py] *)

Module Ingest.

Import Models.

(** The CSV columns [generate_fraud_score_from_row] reads; [None] is a
    column absent from the row ([row.get] then uses its default). *)
Record Row : Type := mkRow {
  FraudFound_P : Z;
  PastNumberOfClaims : option string;
  WitnessPresent : option string;
  PoliceReportFiled : option string;
  Days_Policy_Claim : option string;
  AddressChange_Claim : option string
}.

Definition get (v : option string) (default : string) : string :=
  match v with Some s => s | None => default end.

(** The three [random.uniform] draws of one call. *)
Record Draws : Type := mkDraws {
  ml_score : Q;
  graph_score : Q;
  pattern_score : Q
}.

Definition risk_level_of (composite_score : Q) : string :=
  if Py.ge composite_score 0.8 then "critical"
  else if Py.ge composite_score 0.6 then "high"
  else if Py.ge composite_score 0.3 then "medium"
  else "low".

Definition fraud_flags_of (row : Row) : list string :=
  (if String.eqb (get (PastNumberOfClaims row) "none") "none"
   then [] else ["multiple_prior_claims"%string])
  ++ (if String.eqb (get (WitnessPresent row) "No") "No"
         && String.eqb (get (PoliceReportFiled row) "No") "No"
      then ["no_corroboration"%string] else [])
  ++ (if Str.contains "more than 30" (get (Days_Policy_Claim row) "")
      then ["quick_claim_after_policy"%string] else [])
  ++ (if String.eqb (get (AddressChange_Claim row) "no change") "no change"
      then [] else ["address_change_before_claim"%string]).

Definition generate_fraud_score_from_row (row : Row) (d : Draws)
  : FraudScore :=
  let composite_score := 0.6 * ml_score d + 0.4 * graph_score d in
  {| fraud_score := composite_score;
     ml_model_score := ml_score d;
     graph_network_score := graph_score d;
     pattern_matching_score := pattern_score d;
     fraud_flags := fraud_flags_of row;
     risk_level := risk_level_of composite_score;
     requires_investigation := Py.ge composite_score 0.5 |}.

End Ingest.

(* ------------------------------------------------------------------ *)
(** * [app/ui/claim_review_app.py]: [calculate_fraud_realtime] *)

Module ClaimReview.

Import Models.

(** The entries appended to [discrepancy_flags].  The source formats each
    as a text carrying the numbers kept here. *)
Inductive Flag : Type :=
| UnderClaiming (claimed damage_min damage_max : Q)
| OverClaiming (claimed damage_min damage_max : Q)
| NoEvidence
| MaxingCoverage (claim_ratio : Q).

(** The branch-dependent lines appended to [output]. *)
Inductive Line : Type :=
| LowerThanDamage          (* "SUSPICIOUS: Claim is significantly LOWER" *)
| HigherThanDamage         (* "FRAUD INDICATOR: Claim is 150%+ HIGHER"   *)
| ReasonableAmount         (* "Reasonable: Claim amount matches"         *)
| NoDamageEvidence         (* "CRITICAL: No damage evidence provided"    *)
| LimitedEvidence          (* "Limited Evidence: Few photos submitted"   *)
| AdequateEvidence         (* "Adequate Evidence"                        *)
| ClaimPercent (claim_ratio : Q)   (* "Claim %: ...% of limit"           *)
| NearMaximumCoverage      (* "SUSPICIOUS: Claiming near maximum"        *)
| NormalCoverage.          (* "Normal: Within reasonable range"          *)

Inductive RiskLevel : Set := CRITICAL | HIGH | MEDIUM | LOW.

Inductive Recommendation : Set :=
| DENY_CLAIM | MANUAL_REVIEW_REQUIRED | APPROVE_CLAIM.

(** An element of [all_flags]. *)
Inductive Issue : Type :=
| Detected (f : Flag)
| Historical (s : string).

(** What the four queries of the session return. *)
Record Session : Type := mkSession {
  q_claim : option Claim;
  q_fraud_score : option FraudScore;
  q_assessments : list DamageAssessment;
  q_policy : option Policy
}.

Record Assessment : Type := mkEval {
  actual_damage_min : Q;
  actual_damage_max : Q;
  num_images : nat;
  discrepancy_flags : list Flag;
  output : list Line;
  all_flags : list Issue;
  final_score : Q;
  risk : RiskLevel;
  recommendation : Recommendation
}.

Inductive Outcome : Type :=
| ClaimDataNotFound
| Assessed (a : Assessment).

(** "Check for claim amount discrepancies" *)
Definition amount_check (claimed actual_min actual_max : Q)
  : list Flag * list Line :=
  if Py.gt actual_min 0 then
    if Py.lt claimed (actual_min * 0.5) then
      ([UnderClaiming claimed actual_min actual_max], [LowerThanDamage])
    else if Py.gt claimed (actual_max * 1.5) then
      ([OverClaiming claimed actual_min actual_max], [HigherThanDamage])
    else ([], [ReasonableAmount])
  else ([], []).

(** "Evidence quality check" *)
Definition evidence_check (n : nat) : list Flag * list Line :=
  if (n =? 0)%nat then ([NoEvidence], [NoDamageEvidence])
  else if (n <? 2)%nat then ([], [LimitedEvidence])
  else ([], [AdequateEvidence]).

(** "Policy coverage check" *)
Definition coverage_check (claimed : Q) (policy : option Policy)
  : Py.result (list Flag * list Line) :=
  match policy with
  | Some p =>
      claim_ratio <- Py.div claimed (coverage_limit p) ;;
      if Py.gt claim_ratio 0.95 then
        Py.Ok ([MaxingCoverage claim_ratio],
               [ClaimPercent claim_ratio; NearMaximumCoverage])
      else
        Py.Ok ([], [ClaimPercent claim_ratio; NormalCoverage])
  | None => Py.Ok ([], [])
  end.

(** "Smart risk calculation" *)
Definition smart_risk (flags : list Flag) (base : Q) : Q * RiskLevel :=
  match flags with
  | _ :: _ =>
      (Py.min (base + 0.15) 1.0,
       if (2 <=? List.length flags)%nat then CRITICAL else HIGH)
  | [] =>
      (base,
       if Py.ge base 0.7 then HIGH
       else if Py.ge base 0.3 then MEDIUM
       else LOW)
  end.

(** "Generate recommendation" *)
Definition recommend (flags : list Flag) (final : Q) : Recommendation :=
  if (2 <=? List.length flags)%nat || Py.ge final 0.8 then DENY_CLAIM
  else if (1 <=? List.length flags)%nat || Py.ge final 0.5
       then MANUAL_REVIEW_REQUIRED
  else APPROVE_CLAIM.

(** The evaluation of a claim whose identifier parsed; [s] holds what the
    queries for that identifier return.  A null [fraud_flags] column
    reads as the empty list ([fraud_score.fraud_flags or []]). *)
Definition calculate_fraud_realtime (s : Session) : Py.result Outcome :=
  match q_claim s, q_fraud_score s with
  | Some claim, Some fs =>
      let assessments := q_assessments s in
      let amin := Py.sum (fun a => Py.or0 (estimated_cost_min a)) assessments in
      let amax := Py.sum (fun a => Py.or0 (estimated_cost_max a)) assessments in
      let '(flags1, out1) := amount_check (estimated_damage claim) amin amax in
      let n := List.length assessments in
      let '(flags2, out2) := evidence_check n in
      cov <- coverage_check (estimated_damage claim) (q_policy s) ;;
      let '(flags3, out3) := cov in
      let flags := flags1 ++ flags2 ++ flags3 in
      let '(final, level) := smart_risk flags (fraud_score fs) in
      Py.Ok (Assessed
        {| actual_damage_min := amin;
           actual_damage_max := amax;
           num_images := n;
           discrepancy_flags := flags;
           output := out1 ++ out2 ++ out3;
           all_flags := map Detected flags ++ map Historical (fraud_flags fs);
           final_score := final;
           risk := level;
           recommendation := recommend flags final |})
  | _, _ => Py.Ok ClaimDataNotFound
  end.

(** Flag kinds, as predicates on the flag list. *)
Definition is_under (f : Flag) : bool :=
  match f with UnderClaiming _ _ _ => true | _ => false end.
Definition is_over (f : Flag) : bool :=
  match f with OverClaiming _ _ _ => true | _ => false end.
Definition is_no_evidence (f : Flag) : bool :=
  match f with NoEvidence => true | _ => false end.
Definition is_coverage (f : Flag) : bool :=
  match f with MaxingCoverage _ => true | _ => false end.

Definition raised (kind : Flag -> bool) (flags : list Flag) : Prop :=
  existsb kind flags = true.

End ClaimReview.

(* ------------------------------------------------------------------ *)
(** * [app/services/ai/repair_rag_service.py]: [RepairKnowledgeBase] *)

Module RepairKnowledgeBase.

(** The values stored in the class-level dictionaries. *)
Inductive Value : Type :=
| Int (z : Z)
| Text (s : string)
| Items (l : list string)
| Dict (d : list (string * Value)).

(** [d.get(k)] on the key/value pairs of a dictionary. *)
Fixpoint lookup (k : string) (d : list (string * Value)) : option Value :=
  match d with
  | [] => None
  | (k', v) :: rest => if String.eqb k k' then Some v else lookup k rest
  end.

(** [k in v] *)
Definition contains (v : Value) (k : string) : Py.result bool :=
  match v with
  | Dict d => Py.Ok (match lookup k d with Some _ => true | None => false end)
  | Text s => Py.Ok (Str.contains k s)
  | Items l => Py.Ok (existsb (String.eqb k) l)
  | Int _ => Py.Raise Py.TypeError
  end.

(** [v[k]] for a string key [k] *)
Definition getitem (v : Value) (k : string) : Py.result Value :=
  match v with
  | Dict d =>
      match lookup k d with
      | Some x => Py.Ok x
      | None => Py.Raise Py.KeyError
      end
  | _ => Py.Raise Py.TypeError
  end.

(** The integer an accumulation [total += v] adds. *)
Definition as_int (v : Value) : Py.result Z :=
  match v with
  | Int z => Py.Ok z
  | _ => Py.Raise Py.TypeError
  end.

Definition cost (mn mx days : Z) : Value :=
  Dict [("min"%string, Int mn); ("max"%string, Int mx);
        ("avg_days"%string, Int days)].

Definition entry (minor moderate major : Value) (description : string)
           (common_parts : list string) : Value :=
  Dict [("minor"%string, minor); ("moderate"%string, moderate);
        ("major"%string, major);
        ("description"%string, Text description);
        ("common_parts"%string, Items common_parts)].

Definition REPAIR_COSTS : list (string * Value) :=
  [ ("front-end-damage"%string,
     entry (cost 1500 3500 3) (cost 3500 8000 5) (cost 8000 15000 10)
           "Front bumper, grille, headlights, hood damage"
           ["bumper"; "grille"; "headlights"; "hood"; "radiator"]%string);
    ("rear-end-damage"%string,
     entry (cost 1200 3000 3) (cost 3000 7000 5) (cost 7000 14000 8)
           "Rear bumper, taillights, trunk damage"
           ["rear_bumper"; "taillights"; "trunk"; "exhaust"]%string);
    ("side-impact-damage"%string,
     entry (cost 2000 4000 4) (cost 4000 10000 7) (cost 10000 25000 14)
           "Door, fender, side panel damage"
           ["door"; "fender"; "side_panel"; "mirror"; "window"]%string);
    ("dent"%string,
     entry (cost 150 500 1) (cost 500 1500 2) (cost 1500 3000 3)
           "Dent repair or panel replacement"
           ["panel"; "door"; "hood"; "trunk"]%string);
    ("scratch"%string,
     entry (cost 100 400 1) (cost 400 1200 2) (cost 1200 2500 3)
           "Paint scratch repair and refinishing"
           ["paint"; "clearcoat"; "panel"]%string);
    ("broken_glass"%string,
     entry (cost 200 400 1) (cost 400 800 1) (cost 800 1500 2)
           "Window or windshield replacement"
           ["windshield"; "window"; "side_glass"; "rear_glass"]%string);
    ("crushed"%string,
     entry (cost 3000 6000 7) (cost 6000 15000 14) (cost 15000 30000 21)
           "Severe structural damage"
           ["frame"; "pillar"; "roof"; "floor_pan"]%string) ].

(** "Normalize damage type names":
    [damage_type.lower().replace(" ", "_").replace("-", "_")] *)
Definition normalize (damage_type : string) : string :=
  Str.replace "-" "_" (Str.replace " " "_" (Str.lower damage_type)).

(** An element of [context["damage_breakdown"]]. *)
Record Breakdown : Type := mkBreakdown {
  type : string;
  severity : string;
  cost_min : Z;
  cost_max : Z;
  repair_days : Z;
  description : Value;
  common_parts : Value
}.

(** The fields of [context] filled by the cost loop. *)
Record Context : Type := mkContext {
  damage_breakdown : list Breakdown;
  total_cost_min : Z;
  total_cost_max : Z;
  estimated_repair_days : Z
}.

Definition empty_context : Context :=
  {| damage_breakdown := [];
     total_cost_min := 0;
     total_cost_max := 0;
     estimated_repair_days := 0 |}.

(** [severity if severity else "moderate"] *)
Definition severity_or_moderate (severity : option string) : string :=
  match severity with
  | Some (String c t) => String c t
  | Some EmptyString | None => "moderate"
  end.

(** One iteration of "Get cost data for each damage type". *)
Definition cost_step (severity : option string) (context : Context)
           (damage_type : string) : Py.result Context :=
  let normalized := normalize damage_type in
  match lookup normalized REPAIR_COSTS with
  | Some damage_data =>
      let sev := severity_or_moderate severity in
      present <- contains damage_data sev ;;
      let sev := if present then sev else "moderate"%string in
      cost_info <- getitem damage_data sev ;;
      vmin <- getitem cost_info "min" ;;
      vmax <- getitem cost_info "max" ;;
      vdays <- getitem cost_info "avg_days" ;;
      vdesc <- getitem damage_data "description" ;;
      vparts <- getitem damage_data "common_parts" ;;
      mn <- as_int vmin ;;
      mx <- as_int vmax ;;
      days <- as_int vdays ;;
      Py.Ok {| damage_breakdown :=
                 damage_breakdown context ++
                 [ {| type := damage_type; severity := sev;
                      cost_min := mn; cost_max := mx; repair_days := days;
                      description := vdesc; common_parts := vparts |} ];
               total_cost_min := (total_cost_min context + mn)%Z;
               total_cost_max := (total_cost_max context + mx)%Z;
               estimated_repair_days :=
                 Z.max (estimated_repair_days context) days |}
  | None => Py.Ok context
  end.

Fixpoint cost_loop (severity : option string) (damage_types : list string)
         (context : Context) : Py.result Context :=
  match damage_types with
  | [] => Py.Ok context
  | damage_type :: rest =>
      context' <- cost_step severity context damage_type ;;
      cost_loop severity rest context'
  end.

(** The cost part of [get_repair_context]; scenario matching and the
    recommendation rules only read what is computed here. *)
Definition get_repair_context (damage_types : list string)
           (severity : option string) : Py.result Context :=
  cost_loop severity damage_types empty_context.

End RepairKnowledgeBase.

(* ------------------------------------------------------------------ *)
(** * [app/services/ai/vision_analyzer.py]: [VisionAnalyzer] *)

Module VisionAnalyzer.

(** [analysis["cost_estimate"]]; [None] is a key that is not there. *)
Record CostEstimate : Type := mkCostEstimate {
  cost_min : option Q;
  cost_max : option Q
}.

(** The keys of a per-image analysis dictionary the engine reads. *)
Record Analysis : Type := mkAnalysis {
  success : bool;
  damage_types : option (list string);
  severity : option string;
  cost_estimate : option CostEstimate
}.

(** [a.get('cost_estimate', {}).get('min', 0)] and its [max] twin. *)
Definition get_cost_min (a : Analysis) : Q :=
  match cost_estimate a with
  | Some ce => match cost_min ce with Some x => x | None => 0 end
  | None => 0
  end.

Definition get_cost_max (a : Analysis) : Q :=
  match cost_estimate a with
  | Some ce => match cost_max ce with Some x => x | None => 0 end
  | None => 0
  end.

(** [severity_order.get(s, 0)] *)
Definition severity_order (s : string) : nat :=
  if String.eqb s "MINOR" then 1
  else if String.eqb s "MODERATE" then 2
  else if String.eqb s "MAJOR" then 3
  else if String.eqb s "TOTAL_LOSS" then 4
  else 0.

Definition severity_step (max_severity : string) (a : Analysis) : string :=
  match severity a with
  | Some current_severity =>
      if (severity_order max_severity <? severity_order current_severity)%nat
      then current_severity else max_severity
  | None => max_severity
  end.

Record Aggregated : Type := mkAggregated {
  agg_severity : string;
  agg_cost_min : Q;
  agg_cost_max : Q;
  image_count : nat;
  successful_analyses : nat
}.

Inductive Aggregate : Type :=
| NoAnalysesProvided
| AllAnalysesFailed
| Success (r : Aggregated).

Definition _aggregate_analyses (analyses : list Analysis) : Aggregate :=
  match analyses with
  | [] => NoAnalysesProvided
  | _ :: _ =>
      match filter success analyses with
      | [] => AllAnalysesFailed
      | a :: rest =>
          Success
            {| agg_severity := fold_left severity_step (a :: rest) "MINOR"%string;
               (* "Aggregate cost estimates (take max range)" *)
               agg_cost_min := fold_left Py.max (map get_cost_min rest)
                                         (get_cost_min a);
               agg_cost_max := fold_left Py.max (map get_cost_max rest)
                                         (get_cost_max a);
               image_count := List.length analyses;
               successful_analyses := List.length (a :: rest) |}
      end
  end.

End VisionAnalyzer.

(* ------------------------------------------------------------------ *)
(** * [app/services/damage/image_analyzer.py]: [DamageAssessmentService] *)

Module DamageAssessmentService.

Import Models.

(** [severity_map.get(analysis.get('severity'), DamageSeverity.MODERATE)] *)
Definition severity_map : list (string * DamageSeverity) :=
  [ ("MINOR"%string, MINOR); ("MODERATE"%string, MODERATE);
    ("MAJOR"%string, MAJOR); ("TOTAL_LOSS"%string, TOTAL_LOSS) ].

Definition damage_type_map : list (string * DamageType) :=
  [ ("scratch"%string, SCRATCH); ("dent"%string, DENT);
    ("crack"%string, CRACK); ("broken"%string, BROKEN);
    ("shattered"%string, SHATTERED); ("crushed"%string, CRUSHED);
    ("burned"%string, BURNED); ("water damage"%string, WATER_DAMAGE);
    ("water_damage"%string, WATER_DAMAGE) ].

(** [d.get(k)] *)
Fixpoint get {A : Type} (d : list (string * A)) (k : string) : option A :=
  match d with
  | [] => None
  | (k', v) :: rest => if String.eqb k k' then Some v else get rest k
  end.

Definition severity_of (s : option string) : DamageSeverity :=
  match s with
  | Some k => match get severity_map k with
              | Some v => v
              | None => MODERATE
              end
  | None => MODERATE
  end.

(** The [for dt in damage_types] loop with its [break]. *)
Fixpoint primary_loop (damage_types : list string)
         (primary_damage_type : DamageType) : DamageType :=
  match damage_types with
  | [] => primary_damage_type
  | dt :: rest =>
      match get damage_type_map (Str.lower dt) with
      | Some t => t
      | None => primary_loop rest primary_damage_type
      end
  end.

Definition primary_damage_type_of (damage_types : list string)
  : DamageType :=
  primary_loop damage_types DENT.

(** The record created for one successfully analysed image. *)
Definition assessment_of (analysis : VisionAnalyzer.Analysis)
  : DamageAssessment :=
  let damage_types :=
    match VisionAnalyzer.damage_types analysis with
    | Some l => l
    | None => []
    end in
  {| damage_type := Some (primary_damage_type_of damage_types);
     severity := Some (severity_of (VisionAnalyzer.severity analysis));
     estimated_cost_min := Some (VisionAnalyzer.get_cost_min analysis);
     estimated_cost_max := Some (VisionAnalyzer.get_cost_max analysis) |}.

(** [assess_claim_damage], over the analyses the vision model returned
    for the images in order. *)
Fixpoint assess_loop (analyses : list VisionAnalyzer.Analysis)
  : list DamageAssessment :=
  match analyses with
  | [] => []
  | analysis :: rest =>
      if VisionAnalyzer.success analysis
      then assessment_of analysis :: assess_loop rest
      else assess_loop rest
  end.

Definition assess_claim_damage (claim : option Claim)
           (analyses : list VisionAnalyzer.Analysis)
  : Py.result (list DamageAssessment) :=
  match claim with
  | None => Py.Raise Py.ValueError
  | Some _ => Py.Ok (assess_loop analyses)
  end.

(** [sum(a.cost for a in assessments)] without the [or 0] guard: adding
    [None] raises. *)
Fixpoint sum_strict (l : list (option Q)) (acc : Q) : Py.result Q :=
  match l with
  | [] => Py.Ok acc
  | Some x :: rest => sum_strict rest (acc + x)
  | None :: rest => Py.Raise Py.TypeError
  end.

Definition severity_order (s : option DamageSeverity) : nat :=
  match s with
  | Some MINOR => 1
  | Some MODERATE => 2
  | Some MAJOR => 3
  | Some TOTAL_LOSS => 4
  | None => 0
  end.

(** [max(assessments, key=...)]: the first assessment of largest key. *)
Definition max_by_severity (first : DamageAssessment)
           (rest : list DamageAssessment) : DamageAssessment :=
  fold_left
    (fun best a =>
       if (severity_order (severity best) <? severity_order (severity a))%nat
       then a else best)
    rest first.

Definition DamageType_eq_dec (x y : DamageType) : {x = y} + {x <> y}.
Proof. decide equality. Defined.

Fixpoint values (l : list (option DamageType))
  : Py.result (list DamageType) :=
  match l with
  | [] => Py.Ok []
  | Some t :: rest => ts <- values rest ;; Py.Ok (t :: ts)
  | None :: rest => Py.Raise Py.AttributeError
  end.

Record Summary : Type := mkSummary {
  assessment_count : nat;
  max_severity : option DamageSeverity;
  total_cost_estimate_min : Q;
  total_cost_estimate_max : Q;
  all_damage_types : list DamageType
}.

Definition get_assessment_summary (assessments : list DamageAssessment)
  : Py.result Summary :=
  match assessments with
  | [] =>
      Py.Ok {| assessment_count := 0;
               max_severity := None;
               total_cost_estimate_min := 0;
               total_cost_estimate_max := 0;
               all_damage_types := [] |}
  | a :: rest =>
      let best := max_by_severity a rest in
      total_min <- sum_strict (map estimated_cost_min assessments) 0 ;;
      total_max <- sum_strict (map estimated_cost_max assessments) 0 ;;
      types <- values (map damage_type assessments) ;;
      match severity best with
      | Some s =>
          Py.Ok {| assessment_count := List.length assessments;
                   max_severity := Some s;
                   total_cost_estimate_min := total_min;
                   total_cost_estimate_max := total_max;
                   all_damage_types := nodup DamageType_eq_dec types |}
      | None => Py.Raise Py.AttributeError
      end
  end.

End DamageAssessmentService.

(* ------------------------------------------------------------------ *)
(** * Reference definitions and sample data *)

(** The sum the specification speaks of, by recursion on the sequence. *)
Fixpoint elementwise_sum {A : Type} (f : A -> Q) (l : list A) : Q :=
  match l with
  | [] => 0
  | a :: rest => f a + elementwise_sum f rest
  end.

(** What [normalize] does to one character. *)
Definition normalize_char (c : ascii) : ascii :=
  let c1 := Str.lower_char c in
  let c2 := if Ascii.eqb c1 " " then "_"%char else c1 in
  if Ascii.eqb c2 "-" then "_"%char else c2.

(** A normal string holds no upper-case letter, no space and no hyphen. *)
Definition normal_char (c : ascii) : bool :=
  negb (Str.is_upper c) && negb (Ascii.eqb c " ") && negb (Ascii.eqb c "-").

Fixpoint normal (s : string) : bool :=
  match s with
  | EmptyString => true
  | String c t => normal_char c && normal t
  end.

(** A detected type is recognised when its lower-cased form is a key of
    [damage_type_map]. *)
Definition recognized (dt : string) : option Models.DamageType :=
  DamageAssessmentService.get DamageAssessmentService.damage_type_map
    (Str.lower dt).

Module Samples.

Import Models ClaimReview.

(** [actual_damage_min] and [actual_damage_max] of a session. *)
Definition damage_min_of (s : Session) : Q :=
  Py.sum (fun a => Py.or0 (estimated_cost_min a)) (q_assessments s).

Definition damage_max_of (s : Session) : Q :=
  Py.sum (fun a => Py.or0 (estimated_cost_max a)) (q_assessments s).

Definition row : Ingest.Row :=
  {| Ingest.FraudFound_P := 0;
     Ingest.PastNumberOfClaims := Some "none"%string;
     Ingest.WitnessPresent := Some "Yes"%string;
     Ingest.PoliceReportFiled := Some "Yes"%string;
     Ingest.Days_Policy_Claim := Some "15 to 30"%string;
     Ingest.AddressChange_Claim := Some "no change"%string |}.

Definition draws (ml graph : Q) : Ingest.Draws :=
  {| Ingest.ml_score := ml; Ingest.graph_score := graph;
     Ingest.pattern_score := 0.2 |}.

Definition assessed (mn mx : Q) : DamageAssessment :=
  {| damage_type := Some DENT; severity := Some MODERATE;
     estimated_cost_min := Some mn; estimated_cost_max := Some mx |}.

Definition session (claimed ml graph : Q)
           (assessments : list DamageAssessment) (limit : option Q)
  : Session :=
  {| q_claim := Some {| estimated_damage := claimed |};
     q_fraud_score :=
       Some (Ingest.generate_fraud_score_from_row row (draws ml graph));
     q_assessments := assessments;
     q_policy := option_map mkPolicy limit |}.

(** What [calculate_fraud_realtime] returns on a session, or a record of
    zeros where it does not return an assessment. *)
Definition assessment_of_session (s : Session) : Assessment :=
  match calculate_fraud_realtime s with
  | Py.Ok (Assessed a) => a
  | _ => {| actual_damage_min := 0; actual_damage_max := 0;
            num_images := 0; discrepancy_flags := []; output := [];
            all_flags := []; final_score := 0; risk := LOW;
            recommendation := APPROVE_CLAIM |}
  end.

(** A claim of 30000 against damage assessed at 4000 to 9000. *)
Definition over_claimed : Session :=
  session 30000 0.5 0.3 [assessed 1500 3500; assessed 2500 5500]
          (Some 100000).

(** A claim of 6000 against the same damage, no policy on file. *)
Definition plain (ml graph : Q) : Session :=
  session 6000 ml graph [assessed 1500 3500; assessed 2500 5500] None.

(** One image, successfully analysed, whose cost estimate starts at 0. *)
Definition zero_floor_analysis : VisionAnalyzer.Analysis :=
  {| VisionAnalyzer.success := true;
     VisionAnalyzer.damage_types := Some ["scratch"%string];
     VisionAnalyzer.severity := Some "MINOR"%string;
     VisionAnalyzer.cost_estimate :=
       Some {| VisionAnalyzer.cost_min := Some 0;
               VisionAnalyzer.cost_max := Some 100 |} |}.




(** The same session read with another stored fraud score. *)
Definition with_fraud_score (s : Session) (fs : FraudScore) : Session :=
  {| q_claim := q_claim s;
     q_fraud_score := Some fs;
     q_assessments := q_assessments s;
     q_policy := q_policy s |}.

Definition is_amount_flag (f : Flag) : bool := is_under f || is_over f.

(** A successful analysis with a cost estimate. *)
Definition analysis_with (mn mx : Q) : VisionAnalyzer.Analysis :=
  {| VisionAnalyzer.success := true;
     VisionAnalyzer.damage_types := Some ["dent"%string];
     VisionAnalyzer.severity := Some "MINOR"%string;
     VisionAnalyzer.cost_estimate :=
       Some {| VisionAnalyzer.cost_min := Some mn;
               VisionAnalyzer.cost_max := Some mx |} |}.

(** The per-image cost bounds as the real-time evaluation reads them. *)
Definition min_of (a : DamageAssessment) : Q :=
  Py.or0 (estimated_cost_min a).

Definition max_of (a : DamageAssessment) : Q :=
  Py.or0 (estimated_cost_max a).

(** An assessment whose cost range is well formed. *)
Definition ordered (a : DamageAssessment) : Prop := min_of a <= max_of a.

(** An assessment none of whose analysis columns is null. *)
Definition complete (a : DamageAssessment) : Prop :=
  damage_type a <> None /\ severity a <> None /\
  estimated_cost_min a <> None /\ estimated_cost_max a <> None.

(** The four-way tier rule of the specification. *)
Definition four_way_tier (final : Q) (level : RiskLevel) : Prop :=
  (level = CRITICAL <-> 0.8 <= final) /\
  (level = HIGH <-> 0.6 <= final /\ final < 0.8) /\
  (level = MEDIUM <-> 0.3 <= final /\ final < 0.6) /\
  (level = LOW <-> final < 0.3).

End Samples.

(* ------------------------------------------------------------------ *)
(** * [repair_rag_service.py]: scenario matching and recommendations *)

Module Scenario.

(** An element of [REPAIR_SCENARIOS]. *)
Record t : Type := make {
  scenario : string;
  damage_types : list string;
  severity : string;
  cost_range : Z * Z;
  repair_time_days : Z;
  notes : string
}.

End Scenario.

Module RepairScenarios.

Import RepairKnowledgeBase.

Definition REPAIR_SCENARIOS : list Scenario.t :=
  [ Scenario.make "Minor front bumper scuff"
      ["scratch"; "dent"]%string "minor" (300, 800)%Z 1
      "Buffing and touch-up paint usually sufficient";
    Scenario.make "Moderate front-end collision"
      ["front-end-damage"; "broken_glass"]%string "moderate" (4000, 9000)%Z 5
      "Bumper replacement, headlight replacement, possible radiator damage";
    Scenario.make "Severe side impact"
      ["side-impact-damage"; "crushed"; "broken_glass"]%string "major"
      (12000, 28000)%Z 14
      "Multiple panel replacement, possible frame damage, safety systems check required";
    Scenario.make "Parking lot door ding"
      ["dent"]%string "minor" (150, 400)%Z 1
      "PDR (paintless dent repair) preferred method";
    Scenario.make "Rear-end collision at low speed"
      ["rear-end-damage"]%string "minor" (1500, 3500)%Z 3
      "Bumper replacement, taillight check, trunk alignment" ].

(** An element of [context["similar_scenarios"]]. *)
Record Match : Type := mkMatch {
  scenario : string;
  cost_range : Z * Z;
  repair_time : Z;
  notes : string;
  relevance : Q
}.

(** [set(normalize(dt) for dt in l)], as its distinct elements. *)
Definition normalized_set (l : list string) : list string :=
  nodup string_dec (map normalize l).

(** [len(scenario_types & detected_types)] *)
Definition overlap (scenario_types detected_types : list string) : nat :=
  List.length
    (filter (fun k => existsb (String.eqb k) detected_types) scenario_types).

(** The body of "Find similar repair scenarios" for one scenario. *)
Definition match_scenario (damage_types : list string) (s : Scenario.t)
  : option Match :=
  let scenario_types := normalized_set (Scenario.damage_types s) in
  let detected_types := normalized_set damage_types in
  let n := overlap scenario_types detected_types in
  if (0 <? n)%nat then
    Some {| scenario := Scenario.scenario s;
            cost_range := Scenario.cost_range s;
            repair_time := Scenario.repair_time_days s;
            notes := Scenario.notes s;
            relevance := inject_Z (Z.of_nat n)
                         / inject_Z (Z.of_nat (List.length scenario_types)) |}
  else None.

Fixpoint matches (damage_types : list string) (scenarios : list Scenario.t)
  : list Match :=
  match scenarios with
  | [] => []
  | s :: rest =>
      match match_scenario damage_types s with
      | Some m => m :: matches damage_types rest
      | None => matches damage_types rest
      end
  end.

(** [l.sort(key=relevance, reverse=True)]: the library sort is stable, also
    in reverse; an entry goes before the later entries of the same or a
    smaller relevance. *)
Fixpoint insert_by_relevance (m : Match) (sorted : list Match) : list Match :=
  match sorted with
  | [] => [m]
  | m' :: rest =>
      if Py.lt (relevance m) (relevance m')
      then m' :: insert_by_relevance m rest
      else m :: m' :: rest
  end.

Definition sort_by_relevance (l : list Match) : list Match :=
  fold_right insert_by_relevance [] l.

Definition similar_scenarios (damage_types : list string) : list Match :=
  sort_by_relevance (matches damage_types REPAIR_SCENARIOS).

Definition STRUCTURAL : string :=
  "High repair cost - recommend structural inspection".
Definition RENTAL : string :=
  "Extended repair time - arrange rental vehicle".
Definition TOTAL_LOSS_EVALUATION : string :=
  "Severe damage - total loss evaluation recommended".
Definition COMPREHENSIVE : string :=
  "Multiple damage areas - comprehensive damage assessment required".

(** "Generate recommendations" *)
Definition recommendations (context : Context) (damage_types : list string)
  : list string :=
  (if (15000 <? total_cost_max context)%Z then [STRUCTURAL] else [])
  ++ (if (7 <? estimated_repair_days context)%Z then [RENTAL] else [])
  ++ (if existsb (fun d => String.eqb (Str.lower (type d)) "crushed")
                 (damage_breakdown context)
      then [TOTAL_LOSS_EVALUATION] else [])
  ++ (if (3 <=? List.length damage_types)%nat then [COMPREHENSIVE] else []).

(** The dictionary [get_repair_context] returns. *)
Record RepairContext : Type := mkRepairContext {
  costs : Context;
  scenarios : list Match;
  advice : list string
}.

Definition repair_context (damage_types : list string)
           (severity : option string) : Py.result RepairContext :=
  context <- get_repair_context damage_types severity ;;
  Py.Ok {| costs := context;
           scenarios := similar_scenarios damage_types;
           advice := recommendations context damage_types |}.

End RepairScenarios.

Module RepairRAGService.

Import RepairKnowledgeBase RepairScenarios.

(** What [augment_damage_assessment] returns, without the prompt text. *)
Record Augmentation : Type := mkAugmentation {
  repair_context : RepairContext;
  cost_estimate_min : Z;
  cost_estimate_max : Z;
  cost_estimate_confidence : string;
  estimated_days : Z;
  recommendations : list string
}.

Definition augment_damage_assessment (detected_damages : list string)
           (severity : option string) : Py.result Augmentation :=
  rc <- RepairScenarios.repair_context detected_damages severity ;;
  Py.Ok {| repair_context := rc;
           cost_estimate_min := total_cost_min (costs rc);
           cost_estimate_max := total_cost_max (costs rc);
           cost_estimate_confidence :=
             match scenarios rc with
             | _ :: _ => "high"
             | [] => "medium"
             end;
           estimated_days := estimated_repair_days (costs rc);
           recommendations := advice rc |}.

End RepairRAGService.

(* ------------------------------------------------------------------ *)
(** * [vision_analyzer.py]: what [analyze_damage] does with a parsed reply *)

Module Augmented.

Import VisionAnalyzer.

Record Analysed : Type := mkAnalysed {
  analysis : Analysis;
  cost_estimate_source : option string;
  similar_scenarios : list RepairScenarios.Match;
  recommendations : list string
}.

(** The dictionary of the [except] branch. *)
Definition failure : Analysed :=
  {| analysis := {| success := false; damage_types := None;
                    severity := None; cost_estimate := None |};
     cost_estimate_source := None;
     similar_scenarios := [];
     recommendations := [] |}.

(** [analysis.get('severity', '').lower().replace('_', ' ')] *)
Definition rag_severity (a : Analysis) : string :=
  Str.replace "_" " "
    (Str.lower (match severity a with Some s => s | None => ""%string end)).

(** "Augment with RAG if damage types detected" *)
Definition augment (a : Analysis) : Py.result Analysed :=
  match success a, damage_types a with
  | true, Some (dt :: dts) =>
      rag <- RepairRAGService.augment_damage_assessment
               (dt :: dts) (Some (rag_severity a)) ;;
      let rag_context := RepairRAGService.repair_context rag in
      if String.eqb (RepairRAGService.cost_estimate_confidence rag) "high"
      then
        Py.Ok
          {| analysis :=
               {| success := success a;
                  damage_types := damage_types a;
                  severity := severity a;
                  cost_estimate :=
                    Some {| cost_min :=
                              Some (inject_Z
                                      (RepairRAGService.cost_estimate_min rag));
                            cost_max :=
                              Some (inject_Z
                                      (RepairRAGService.cost_estimate_max rag))
                         |} |};
             cost_estimate_source := Some "RAG (Historical Data)"%string;
             similar_scenarios :=
               firstn 2 (RepairScenarios.scenarios rag_context);
             recommendations := RepairRAGService.recommendations rag |}
      else
        Py.Ok
          {| analysis := a;
             cost_estimate_source := Some "AI Estimate"%string;
             similar_scenarios :=
               firstn 2 (RepairScenarios.scenarios rag_context);
             recommendations := RepairRAGService.recommendations rag |}
  | _, _ =>
      Py.Ok {| analysis := a; cost_estimate_source := None;
               similar_scenarios := []; recommendations := [] |}
  end.

(** [analyze_damage] from the parsed reply on: any exception of the
    augmentation is caught and turned into a failed analysis. *)
Definition analyze_parsed (a : Analysis) : Analysed :=
  match augment a with
  | Py.Ok r => r
  | Py.Raise _ => failure
  end.

End Augmented.

(* ------------------------------------------------------------------ *)
(** * Properties of the stored models ([app/models]) *)

Module ModelProperties.

Import Models.

(** [FraudScore.is_suspicious] *)
Definition is_suspicious (fs : FraudScore) : bool :=
  Py.ge (fraud_score fs) 0.5.

(** [FraudScore.recommended_action] *)
Definition recommended_action (fs : FraudScore) : string :=
  if Py.ge (fraud_score fs) 0.8 then "immediate_investigation"
  else if Py.ge (fraud_score fs) 0.5 then "detailed_review"
  else if Py.ge (fraud_score fs) 0.3 then "flag_for_monitoring"
  else "normal_processing".

(** [Claim.is_suspicious], on the nullable [Claim.fraud_score] column. *)
Definition claim_is_suspicious (claim_fraud_score : option Q) : bool :=
  match claim_fraud_score with
  | Some s => Py.gt s 0.5
  | None => false
  end.

(** A nullable number is truthy when it is there and is not zero. *)
Definition truthy (v : option Q) : bool :=
  match v with
  | Some x => negb (Qeq_bool x 0)
  | None => false
  end.

(** [DamageAssessment.estimated_cost_average] *)
Definition estimated_cost_average (a : DamageAssessment) : Q :=
  match estimated_cost_min a, estimated_cost_max a with
  | Some mn, Some mx =>
      if truthy (Some mn) && truthy (Some mx) then (mn + mx) / 2 else 0.0
  | _, _ => 0.0
  end.

End ModelProperties.

(* ------------------------------------------------------------------ *)
(** * [claim_review_app.py]: the auto-denial reason *)

Module DenialReason.

Import ClaimReview.

(** "Generate auto-denial reason": the issues the reason lists
    ([all_flags[:5]]), or [None] for the empty text. *)
Definition auto_denial_reason (a : Assessment) : option (list Issue) :=
  if (1 <=? List.length (discrepancy_flags a))%nat
     || Py.ge (final_score a) 0.7
  then Some (firstn 5 (all_flags a))
  else None.

(** The tiers and the recommendations, from the mildest on. *)
Definition risk_rank (r : RiskLevel) : nat :=
  match r with
  | LOW => 0
  | MEDIUM => 1
  | HIGH => 2
  | CRITICAL => 3
  end.

Definition recommendation_rank (r : Recommendation) : nat :=
  match r with
  | APPROVE_CLAIM => 0
  | MANUAL_REVIEW_REQUIRED => 1
  | DENY_CLAIM => 2
  end.

End DenialReason.

(* ------------------------------------------------------------------ *)
(** * [ingest_kaggle_data.py]: the ranges of the random draws *)

Module Draws.

Import Ingest.

(** [x = random.uniform(a, b)] *)
Definition uniform (a b x : Q) : Prop := a <= x /\ x <= b.

(** The draws [generate_fraud_score_from_row] can make for a row. *)
Definition drawn_for (row : Row) (d : Ingest.Draws) : Prop :=
  (if (FraudFound_P row =? 1)%Z
   then uniform 0.6 0.95 (ml_score d) /\ uniform 0.5 0.9 (graph_score d)
   else uniform 0.05 0.45 (ml_score d) /\ uniform 0.05 0.40 (graph_score d))
  /\ uniform 0.1 0.5 (pattern_score d).

(** The four names [fraud_flags] is built from. *)
Definition FLAG_NAMES : list string :=
  [ "multiple_prior_claims"; "no_corroboration";
    "quick_claim_after_policy"; "address_change_before_claim" ]%string.

End Draws.

(* ------------------------------------------------------------------ *)
(** * Reference definitions for the knowledge base *)

Module Reference.

Import RepairKnowledgeBase.

(** The keys of [REPAIR_COSTS] a normalised name can be equal to. *)
Definition REACHABLE : list string :=
  ["dent"; "scratch"; "broken_glass"; "crushed"]%string.

(** The keys of [REPAIR_COSTS] written with hyphens. *)
Definition HYPHENATED : list string :=
  ["front-end-damage"; "rear-end-damage"; "side-impact-damage"]%string.

(** The severities that name a cost row. *)
Definition ROW_NAMES : list string := ["minor"; "moderate"; "major"]%string.

(** The keys of an entry that do not name a cost row. *)
Definition OTHER_KEYS : list string := ["description"; "common_parts"]%string.

(** [context] after one more breakdown entry. *)
Definition push (context : Context) (e : Breakdown) : Context :=
  {| damage_breakdown := damage_breakdown context ++ [e];
     total_cost_min := (total_cost_min context + cost_min e)%Z;
     total_cost_max := (total_cost_max context + cost_max e)%Z;
     estimated_repair_days :=
       Z.max (estimated_repair_days context) (repair_days e) |}.

(** The totals of a list of breakdown entries. *)
Definition sum_of (f : Breakdown -> Z) (l : list Breakdown) : Z :=
  fold_right (fun e acc => (f e + acc)%Z) 0%Z l.

Definition longest_repair (l : list Breakdown) : Z :=
  fold_right (fun e acc => Z.max (repair_days e) acc) 0%Z l.

(** What every breakdown entry priced at severity [sev] satisfies. *)
Definition table_row (sev : string) (e : Breakdown) : Prop :=
  In (normalize (type e)) REACHABLE /\
  (In sev ROW_NAMES -> RepairKnowledgeBase.severity e = sev) /\
  (~ In sev ROW_NAMES ->
   RepairKnowledgeBase.severity e = "moderate"%string) /\
  (0 < cost_min e <= cost_max e)%Z /\
  (1 <= repair_days e)%Z /\
  ((7 < repair_days e)%Z <->
   normalize (type e) = "crushed"%string /\
   RepairKnowledgeBase.severity e <> "minor"%string).

(** A name the cost table recognises. *)
Definition priced (damage_type : string) : bool :=
  match lookup (normalize damage_type) REPAIR_COSTS with
  | Some _ => true
  | None => false
  end.

(** A scenario shares a name with the detected names when some
    normalised scenario type is a normalised detected name. *)
Definition shares_name (damage_types : list string) (s : Scenario.t)
  : Prop :=
  exists k,
    In k (map normalize (Scenario.damage_types s)) /\
    In k (map normalize damage_types).

Definition some_scenario_shares_name (damage_types : list string) : Prop :=
  exists s, In s RepairScenarios.REPAIR_SCENARIOS /\
            shares_name damage_types s.

(** A string without the underscore character. *)
Fixpoint no_underscore (s : string) : bool :=
  match s with
  | EmptyString => true
  | String c t => negb (Ascii.eqb c "_") && no_underscore t
  end.

(** A detected name that normalises to "crushed". *)
Definition crushed_detected (damage_types : list string) : Prop :=
  exists t, In t damage_types /\ normalize t = "crushed"%string.

(** The stored record of an image, from the parsed reply of the vision
    model. *)
Definition stored_assessment (a : VisionAnalyzer.Analysis)
  : Models.DamageAssessment :=
  DamageAssessmentService.assessment_of
    (Augmented.analysis (Augmented.analyze_parsed a)).

(** A successful analysis that detected hyphenated table names only. *)
Definition hyphenated_only (a : VisionAnalyzer.Analysis) : Prop :=
  VisionAnalyzer.success a = true /\
  exists t rest,
    VisionAnalyzer.damage_types a = Some (t :: rest) /\
    Forall (fun x => In x HYPHENATED) (t :: rest).

(** A stored image that was never analysed: its cost columns are null,
    as for the rows [scripts/assign_roboflow_images.py] creates. *)
Definition unanalysed (x : Models.DamageAssessment) : Prop :=
  Models.estimated_cost_min x = None /\ Models.estimated_cost_max x = None.

(** The severity names the analyzer orders. *)
Definition KNOWN_SEVERITIES : list string :=
  ["MINOR"; "MODERATE"; "MAJOR"; "TOTAL_LOSS"]%string.

End Reference.

(* ------------------------------------------------------------------ *)
(** * Properties *)

(** ** Comparisons and arithmetic of the Python layer *)

Lemma lt_spec (x y : Q) : Py.lt x y = true <-> x < y.
Proof.
  unfold Py.lt. rewrite negb_true_iff.
  split; intro H.
  - apply Qnot_le_lt. intro Hle. apply Qle_bool_iff in Hle. congruence.
  - destruct (Qle_bool y x) eqn:E; [|reflexivity].
    apply Qle_bool_iff in E. exfalso. exact (Qlt_not_le _ _ H E).
Qed.

Lemma lt_false (x y : Q) : Py.lt x y = false <-> y <= x.
Proof.
  unfold Py.lt. rewrite negb_false_iff. apply Qle_bool_iff.
Qed.

Lemma gt_spec (x y : Q) : Py.gt x y = true <-> y < x.
Proof. unfold Py.gt. apply lt_spec. Qed.

Lemma gt_false (x y : Q) : Py.gt x y = false <-> x <= y.
Proof. unfold Py.gt. apply lt_false. Qed.

Lemma ge_spec (x y : Q) : Py.ge x y = true <-> y <= x.
Proof. unfold Py.ge. apply Qle_bool_iff. Qed.

Lemma ge_false (x y : Q) : Py.ge x y = false <-> x < y.
Proof.
  unfold Py.ge. split; intro H.
  - apply Qnot_le_lt. intro Hle. apply Qle_bool_iff in Hle. congruence.
  - destruct (Qle_bool y x) eqn:E; [|reflexivity].
    apply Qle_bool_iff in E. exfalso. exact (Qlt_not_le _ _ H E).
Qed.



Lemma div_inv (x y q : Q) :
  Py.div x y = Py.Ok q -> ~ y == 0 /\ q = x / y.
Proof.
  unfold Py.div. destruct (Qeq_bool y 0) eqn:E; [discriminate|].
  intro H. injection H as <-. split; [|reflexivity].
  intro Hy. apply Qeq_bool_iff in Hy. congruence.
Qed.

Lemma fold_sum_from {A : Type} (f : A -> Q) (l : list A) (x : Q) :
  fold_left (fun acc a => acc + f a) l x == x + elementwise_sum f l.
Proof.
  revert x. induction l as [|a l IH]; intro x; simpl.
  - ring.
  - rewrite IH. ring.
Qed.

Lemma sum_is_elementwise_sum {A : Type} (f : A -> Q) (l : list A) :
  Py.sum f l == elementwise_sum f l.
Proof. unfold Py.sum. rewrite fold_sum_from. ring. Qed.

Lemma elementwise_sum_le {A : Type} (f g : A -> Q) (l : list A) :
  Forall (fun a => f a <= g a) l ->
  elementwise_sum f l <= elementwise_sum g l.
Proof.
  induction 1 as [|a l Ha _ IH]; simpl.
  - apply Qle_refl.
  - apply Qplus_le_compat; assumption.
Qed.

(** ** The real-time evaluation, step by step *)

Section RealTime.

Import Models ClaimReview Samples.

(** What an evaluation that reaches its end has computed. *)
Lemma calculate_assessed (s : Session) (a : Assessment) :
  calculate_fraud_realtime s = Py.Ok (Assessed a) ->
  exists claim fs flags3 out3,
    q_claim s = Some claim /\
    q_fraud_score s = Some fs /\
    coverage_check (estimated_damage claim) (q_policy s)
      = Py.Ok (flags3, out3) /\
    let amount :=
      amount_check (estimated_damage claim) (damage_min_of s) (damage_max_of s) in
    let evidence := evidence_check (List.length (q_assessments s)) in
    actual_damage_min a = damage_min_of s /\
    actual_damage_max a = damage_max_of s /\
    num_images a = List.length (q_assessments s) /\
    discrepancy_flags a = fst amount ++ fst evidence ++ flags3 /\
    output a = snd amount ++ snd evidence ++ out3 /\
    all_flags a = map Detected (discrepancy_flags a)
                  ++ map Historical (fraud_flags fs) /\
    final_score a = fst (smart_risk (discrepancy_flags a) (fraud_score fs)) /\
    risk a = snd (smart_risk (discrepancy_flags a) (fraud_score fs)) /\
    recommendation a = recommend (discrepancy_flags a) (final_score a).
Proof.
  unfold calculate_fraud_realtime, damage_min_of, damage_max_of.
  destruct (q_claim s) as [claim|]; [|discriminate].
  destruct (q_fraud_score s) as [fs|]; [|discriminate].
  destruct (amount_check _ _ _) as [flags1 out1] eqn:Ea.
  destruct (evidence_check _) as [flags2 out2] eqn:Ee.
  destruct (coverage_check _ _) as [[flags3 out3]|e] eqn:Ec; simpl;
    [|discriminate].
  destruct (smart_risk _ _) as [final level] eqn:Er.
  intro H. injection H as <-. simpl.
  exists claim, fs, flags3, out3. cbv zeta.
  rewrite ?Ea, ?Ee, ?Er. simpl.
  repeat split; reflexivity || assumption.
Qed.


End RealTime.

(** ** Which step raises which flag *)

Section Flags.

Import Models ClaimReview.

Lemma raised_app (kind : Flag -> bool) (l1 l2 : list Flag) :
  raised kind (l1 ++ l2) <-> raised kind l1 \/ raised kind l2.
Proof. unfold raised. rewrite existsb_app. apply orb_true_iff. Qed.

Lemma raised_nil (kind : Flag -> bool) : ~ raised kind [].
Proof. unfold raised. simpl. discriminate. Qed.

Lemma amount_check_under (c mn mx : Q) :
  raised is_under (fst (amount_check c mn mx)) <-> 0 < mn /\ c < mn * 0.5.
Proof.
  unfold amount_check, raised.
  destruct (Py.gt mn 0) eqn:G.
  - apply gt_spec in G.
    destruct (Py.lt c (mn * 0.5)) eqn:U.
    + apply lt_spec in U. simpl. tauto.
    + apply lt_false in U.
      assert (~ c < mn * 0.5) by (apply Qle_not_lt; exact U).
      destruct (Py.gt c (mx * 1.5)); simpl; split;
        (discriminate || tauto).
  - apply gt_false in G. simpl. split; [discriminate|].
    intros [H _]. exfalso. exact (Qlt_not_le _ _ H G).
Qed.

Lemma amount_check_over (c mn mx : Q) :
  raised is_over (fst (amount_check c mn mx))
  <-> 0 < mn /\ ~ c < mn * 0.5 /\ mx * 1.5 < c.
Proof.
  unfold amount_check, raised.
  destruct (Py.gt mn 0) eqn:G.
  - apply gt_spec in G.
    destruct (Py.lt c (mn * 0.5)) eqn:U.
    + apply lt_spec in U. simpl. split; [discriminate|tauto].
    + apply lt_false in U.
      assert (~ c < mn * 0.5) by (apply Qle_not_lt; exact U).
      destruct (Py.gt c (mx * 1.5)) eqn:O; simpl.
      * apply gt_spec in O. tauto.
      * apply gt_false in O. split; [discriminate|].
        intros (_ & _ & H'). exfalso. exact (Qlt_not_le _ _ H' O).
  - apply gt_false in G. simpl. split; [discriminate|].
    intros [H _]. exfalso. exact (Qlt_not_le _ _ H G).
Qed.

Lemma amount_check_other (c mn mx : Q) :
  ~ raised is_no_evidence (fst (amount_check c mn mx)) /\
  ~ raised is_coverage (fst (amount_check c mn mx)).
Proof.
  unfold amount_check, raised.
  destruct (Py.gt mn 0); [|simpl; split; discriminate].
  destruct (Py.lt c (mn * 0.5)); [simpl; split; discriminate|].
  destruct (Py.gt c (mx * 1.5)); simpl; split; discriminate.
Qed.

Lemma evidence_check_flags (n : nat) :
  fst (evidence_check n) = if (n =? 0)%nat then [NoEvidence] else [].
Proof.
  unfold evidence_check.
  destruct (n =? 0)%nat; [reflexivity|].
  destruct (n <? 2)%nat; reflexivity.
Qed.

Lemma evidence_check_no_evidence (n : nat) :
  raised is_no_evidence (fst (evidence_check n)) <-> n = 0%nat.
Proof.
  rewrite evidence_check_flags. unfold raised.
  destruct (n =? 0)%nat eqn:E; simpl.
  - apply Nat.eqb_eq in E. tauto.
  - apply Nat.eqb_neq in E. split; [discriminate|contradiction].
Qed.

Lemma evidence_check_other (n : nat) :
  ~ raised is_under (fst (evidence_check n)) /\
  ~ raised is_over (fst (evidence_check n)) /\
  ~ raised is_coverage (fst (evidence_check n)).
Proof.
  rewrite evidence_check_flags. unfold raised.
  destruct (n =? 0)%nat; simpl; repeat split; discriminate.
Qed.


Lemma coverage_check_none (c : Q) :
  coverage_check c None = Py.Ok ([], []).
Proof. reflexivity. Qed.



Lemma coverage_check_inv (c : Q) (policy : option Policy)
      (flags : list Flag) (out : list Line) :
  coverage_check c policy = Py.Ok (flags, out) ->
  (policy = None /\ flags = [] /\ out = []) \/
  (exists p, policy = Some p /\ ~ coverage_limit p == 0 /\
     let claim_ratio := c / coverage_limit p in
     (0.95 < claim_ratio /\ flags = [MaxingCoverage claim_ratio] /\
      out = [ClaimPercent claim_ratio; NearMaximumCoverage]) \/
     (claim_ratio <= 0.95 /\ flags = [] /\
      out = [ClaimPercent claim_ratio; NormalCoverage])).
Proof.
  destruct policy as [p|].
  - intro H. right. exists p. split; [reflexivity|].
    unfold coverage_check in H.
    destruct (Py.div c (coverage_limit p)) as [q|e] eqn:D;
      [|discriminate].
    apply div_inv in D. destruct D as [Hz ->]. split; [exact Hz|].
    simpl in H. cbv zeta.
    destruct (Py.gt (c / coverage_limit p) 0.95) eqn:G.
    + apply gt_spec in G. injection H as <- <-. left. auto.
    + apply gt_false in G. injection H as <- <-. right. auto.
  - intro H. left. injection H as <- <-. auto.
Qed.

Lemma coverage_check_other (c : Q) (policy : option Policy)
      (flags : list Flag) (out : list Line) :
  coverage_check c policy = Py.Ok (flags, out) ->
  ~ raised is_under flags /\ ~ raised is_over flags /\
  ~ raised is_no_evidence flags.
Proof.
  intro H. apply coverage_check_inv in H.
  destruct H as [(_ & -> & _) | (p & _ & _ & [(_ & -> & _)|(_ & -> & _)])];
    unfold raised; simpl; repeat split; discriminate.
Qed.

End Flags.

(** ** Composite score, escalation and recommendation *)

Section Scoring.

Import Models ClaimReview Samples.





(** A claim of 30000 against damage assessed at 4000 to 9000, with model
    scores 0.5 and 0.3: one over-claiming flag, base 0.42, final 0.57,
    manual review. *)
Example over_claimed_evaluation :
  let a := assessment_of_session over_claimed in
  calculate_fraud_realtime over_claimed = Py.Ok (Assessed a) /\
  discrepancy_flags a = [OverClaiming 30000 (0 + 1500 + 2500) (0 + 3500 + 5500)] /\
  final_score a == 0.57 /\
  risk a = HIGH /\
  recommendation a = MANUAL_REVIEW_REQUIRED.
Proof. cbv zeta. repeat split; reflexivity. Qed.

End Scoring.

(** ** Risk tier *)

Section RiskTier.

Import Models ClaimReview Samples.

Lemma risk_level_of_cases (c : Q) :
  (0.8 <= c /\ Ingest.risk_level_of c = "critical"%string) \/
  (0.6 <= c /\ c < 0.8 /\ Ingest.risk_level_of c = "high"%string) \/
  (0.3 <= c /\ c < 0.6 /\ Ingest.risk_level_of c = "medium"%string) \/
  (c < 0.3 /\ Ingest.risk_level_of c = "low"%string).
Proof.
  unfold Ingest.risk_level_of.
  destruct (Py.ge c 0.8) eqn:E8;
    [apply ge_spec in E8; auto | apply ge_false in E8].
  destruct (Py.ge c 0.6) eqn:E6;
    [apply ge_spec in E6; auto | apply ge_false in E6].
  destruct (Py.ge c 0.3) eqn:E3;
    [apply ge_spec in E3; auto 6 | apply ge_false in E3; auto 6].
Qed.

Lemma smart_risk_cases (flags : list Flag) (base : Q) :
  let n := List.length flags in
  let final := fst (smart_risk flags base) in
  let level := snd (smart_risk flags base) in
  ((2 <= n)%nat /\ level = CRITICAL) \/
  (n = 1%nat /\ level = HIGH) \/
  (n = 0%nat /\ 0.7 <= final /\ level = HIGH) \/
  (n = 0%nat /\ 0.3 <= final /\ final < 0.7 /\ level = MEDIUM) \/
  (n = 0%nat /\ final < 0.3 /\ level = LOW).
Proof.
  destruct flags as [|f [|g l]]; simpl.
  - right. right.
    destruct (Py.ge base 0.7) eqn:E7;
      [apply ge_spec in E7; auto | apply ge_false in E7].
    destruct (Py.ge base 0.3) eqn:E3;
      [apply ge_spec in E3; auto 7 | apply ge_false in E3; auto 7].
  - auto.
  - left. split; [lia|reflexivity].
Qed.

(** C5, as the specification states it, fails for the real-time
    evaluation: a claim with no discrepancy flag and a final score of 0.9
    is rated HIGH, not CRITICAL. *)
Lemma four_way_tier_fails_in_real_time :
  let a := assessment_of_session (plain 0.9 0.9) in
  calculate_fraud_realtime (plain 0.9 0.9) = Py.Ok (Assessed a) /\
  discrepancy_flags a = [] /\
  0.8 <= final_score a /\
  risk a = HIGH /\
  ~ four_way_tier (final_score a) (risk a).
Proof.
  cbv zeta.
  assert (H8 : 0.8 <= final_score (assessment_of_session (plain 0.9 0.9)))
    by (vm_compute; discriminate).
  assert (Hr : risk (assessment_of_session (plain 0.9 0.9)) = HIGH)
    by reflexivity.
  repeat split; try reflexivity; try exact H8.
  intros [Hc _]. apply Hc in H8. rewrite Hr in H8. discriminate.
Qed.

(** C5, amended.  At ingestion the stored tier follows the four-way
    rule on the composite score (critical from 0.8, high from 0.6,
    medium from 0.3, low below).  In the real-time evaluation the tier is
    CRITICAL exactly when two or more flags were raised, HIGH exactly
    when one flag was raised or none was and the final score is at least
    0.7, MEDIUM exactly when no flag was raised and the final score is in
    [0.3, 0.7), and LOW exactly when no flag was raised and the final
    score is below 0.3. *)
Theorem risk_tier_rules :
  (forall (row : Ingest.Row) (d : Ingest.Draws),
      let fs := Ingest.generate_fraud_score_from_row row d in
      let c := fraud_score fs in
      (risk_level fs = "critical"%string <-> 0.8 <= c) /\
      (risk_level fs = "high"%string <-> 0.6 <= c /\ c < 0.8) /\
      (risk_level fs = "medium"%string <-> 0.3 <= c /\ c < 0.6) /\
      (risk_level fs = "low"%string <-> c < 0.3)) /\
  (forall (s : Session) (a : Assessment),
      calculate_fraud_realtime s = Py.Ok (Assessed a) ->
      let n := List.length (discrepancy_flags a) in
      let final := final_score a in
      (risk a = CRITICAL <-> (2 <= n)%nat) /\
      (risk a = HIGH <-> n = 1%nat \/ (n = 0%nat /\ 0.7 <= final)) /\
      (risk a = MEDIUM <-> n = 0%nat /\ 0.3 <= final /\ final < 0.7) /\
      (risk a = LOW <-> n = 0%nat /\ final < 0.3)).
Proof.
  split.
  - intros row d. cbv zeta.
    change (risk_level (Ingest.generate_fraud_score_from_row row d))
      with (Ingest.risk_level_of
              (fraud_score (Ingest.generate_fraud_score_from_row row d))).
    generalize (fraud_score (Ingest.generate_fraud_score_from_row row d)).
    intro c.
    destruct (risk_level_of_cases c)
      as [(H8 & ->) | [(H6 & H8 & ->) | [(H3 & H6 & ->) | (H3 & ->)]]];
      repeat split; intros; try discriminate; try reflexivity; try lra.
  - intros s a Hrun n final.
    apply calculate_assessed in Hrun.
    destruct Hrun as (claim & fs & flags3 & out3 & _ & _ & _ & Hrest).
    cbv zeta in Hrest.
    destruct Hrest as (_ & _ & _ & _ & _ & _ & Hfinal & Hrisk & _).
    pose proof (smart_risk_cases (discrepancy_flags a) (fraud_score fs))
      as Hcases.
    cbv zeta in Hcases. rewrite <- Hfinal, <- Hrisk in Hcases.
    fold n in Hcases. fold final in Hcases.
    destruct Hcases
      as [(Hn & ->) | [(Hn & ->) | [(Hn & H7 & ->) |
          [(Hn & H3 & H7 & ->) | (Hn & H3 & ->)]]]];
      repeat split; intros; try discriminate; try reflexivity;
      try lia; try lra; intuition (try lia; try lra; try discriminate).
Qed.

Lemma risk_tier_rules_witness :
  let a := assessment_of_session over_claimed in
  let n := List.length (discrepancy_flags a) in
  let final := final_score a in
  (risk a = CRITICAL <-> (2 <= n)%nat) /\
  (risk a = HIGH <-> n = 1%nat \/ (n = 0%nat /\ 0.7 <= final)) /\
  (risk a = MEDIUM <-> n = 0%nat /\ 0.3 <= final /\ final < 0.7) /\
  (risk a = LOW <-> n = 0%nat /\ final < 0.3).
Proof.
  exact (proj2 risk_tier_rules over_claimed
           (assessment_of_session over_claimed) eq_refl).
Defined.

End RiskTier.

(** ** Discrepancy, evidence and coverage flags *)

Section Discrepancies.

Import Models ClaimReview Samples.

(** The flags of an evaluation, kind by kind. *)
Lemma flags_by_kind (s : Session) (claim : Claim) (a : Assessment) :
  q_claim s = Some claim ->
  calculate_fraud_realtime s = Py.Ok (Assessed a) ->
  let c := estimated_damage claim in
  let mn := actual_damage_min a in
  let mx := actual_damage_max a in
  (raised is_under (discrepancy_flags a) <-> 0 < mn /\ c < mn * 0.5) /\
  (raised is_over (discrepancy_flags a)
   <-> 0 < mn /\ ~ c < mn * 0.5 /\ mx * 1.5 < c) /\
  (raised is_no_evidence (discrepancy_flags a) <-> num_images a = 0%nat) /\
  (raised is_coverage (discrepancy_flags a)
   <-> exists p, q_policy s = Some p /\ 0.95 < c / coverage_limit p).
Proof.
  intros Hc Hrun. apply calculate_assessed in Hrun.
  destruct Hrun as (claim' & fs & flags3 & out3 & Hc' & _ & Hcov & Hrest).
  rewrite Hc in Hc'. injection Hc' as <-.
  cbv zeta in Hrest.
  destruct Hrest as (-> & -> & -> & -> & _).
  cbv zeta.
  pose proof (amount_check_other (estimated_damage claim)
                (damage_min_of s) (damage_max_of s)) as (Ha1 & Ha2).
  pose proof (evidence_check_other (List.length (q_assessments s)))
    as (He1 & He2 & He3).
  pose proof (coverage_check_other _ _ _ _ Hcov) as (Hc1 & Hc2 & Hc3).
  rewrite !raised_app.
  rewrite amount_check_under, amount_check_over, evidence_check_no_evidence.
  repeat split; try tauto.
  - intros [H | [H | H]]; try contradiction.
    apply coverage_check_inv in Hcov.
    destruct Hcov as [(_ & -> & _) | (p & Hp & _ & Hcases)].
    + exfalso. exact (raised_nil _ H).
    + cbv zeta in Hcases.
      destruct Hcases as [(Hgt & _ & _) | (_ & -> & _)].
      * exists p. auto.
      * exfalso. exact (raised_nil _ H).
  - intros (p & Hp & Hgt). right. right.
    apply coverage_check_inv in Hcov.
    destruct Hcov as [(Hnone & _) | (p' & Hp' & _ & Hcases)];
      [congruence|].
    rewrite Hp in Hp'. injection Hp' as <-.
    cbv zeta in Hcases.
    destruct Hcases as [(_ & -> & _) | (Hle & _ & _)].
    + reflexivity.
    + exfalso. exact (Qlt_not_le _ _ Hgt Hle).
Qed.




End Discrepancies.

Section Coverage.

Import Models ClaimReview Samples.






End Coverage.

Section Evidence.

Import Models ClaimReview Samples.






End Evidence.

(** ** Aggregated cost ranges *)

Section Totals.

Import Models.

Lemma or0_some (x : Q) : Py.or0 (Some x) == x.
Proof.
  simpl. destruct (Qeq_bool x 0) eqn:E; [|reflexivity].
  apply Qeq_bool_iff in E. symmetry. exact E.
Qed.

Lemma elementwise_sum_map {A B : Type} (g : A -> B) (f : B -> Q)
      (l : list A) :
  elementwise_sum f (map g l) = elementwise_sum (fun a => f (g a)) l.
Proof.
  induction l as [|a l IH]; simpl; [reflexivity|].
  rewrite IH. reflexivity.
Qed.

Lemma sum_strict_ok (l : list (option Q)) (acc : Q) :
  Forall (fun o => o <> None) l ->
  exists t,
    DamageAssessmentService.sum_strict l acc = Py.Ok t /\
    t == acc + elementwise_sum Py.or0 l.
Proof.
  intro H. revert acc.
  induction H as [|o l Ho _ IH]; intro acc.
  - exists acc. split; [reflexivity|]. simpl. ring.
  - destruct o as [x|]; [|congruence].
    destruct (IH (acc + x)) as (t & Ht & Heq).
    exists t. split; [exact Ht|].
    rewrite Heq.
    change (elementwise_sum Py.or0 (Some x :: l))
      with (Py.or0 (Some x) + elementwise_sum Py.or0 l).
    rewrite or0_some. ring.
Qed.

Lemma sum_strict_none (l : list (option Q)) (acc : Q) :
  In None l ->
  DamageAssessmentService.sum_strict l acc = Py.Raise Py.TypeError.
Proof.
  revert acc. induction l as [|o l IH]; intros acc Hin; [destruct Hin|].
  destruct o as [x|]; [|reflexivity].
  simpl. apply IH. destruct Hin as [H|H]; [discriminate|exact H].
Qed.

Lemma values_ok (l : list (option DamageType)) :
  Forall (fun o => o <> None) l ->
  exists ts, DamageAssessmentService.values l = Py.Ok ts.
Proof.
  induction 1 as [|o l Ho _ IH].
  - exists []. reflexivity.
  - destruct o as [t|]; [|congruence].
    destruct IH as (ts & Hts). exists (t :: ts).
    simpl. rewrite Hts. reflexivity.
Qed.

Lemma max_by_severity_in (a : DamageAssessment)
      (rest : list DamageAssessment) :
  In (DamageAssessmentService.max_by_severity a rest) (a :: rest).
Proof.
  unfold DamageAssessmentService.max_by_severity.
  revert a. induction rest as [|b rest IH]; intro a; simpl.
  - left. reflexivity.
  - match goal with
    | |- context [if ?c then _ else _] => destruct c
    end.
    + right. apply IH.
    + destruct (IH a) as [H|H]; [left; exact H | right; right; exact H].
Qed.

Lemma max_le_l (x y : Q) : x <= Py.max x y.
Proof.
  unfold Py.max. destruct (Py.gt y x) eqn:E.
  - apply gt_spec in E. apply Qlt_le_weak, E.
  - apply Qle_refl.
Qed.

Lemma max_le_r (x y : Q) : y <= Py.max x y.
Proof.
  unfold Py.max. destruct (Py.gt y x) eqn:E.
  - apply Qle_refl.
  - apply gt_false in E. exact E.
Qed.

Lemma max_choice (x y : Q) : Py.max x y = x \/ Py.max x y = y.
Proof. unfold Py.max. destruct (Py.gt y x); auto. Qed.

(** [max(iterable)] returns an element that bounds all the others. *)
Lemma fold_max_spec (l : list Q) (x : Q) :
  let m := fold_left Py.max l x in
  In m (x :: l) /\ Forall (fun y => y <= m) (x :: l).
Proof.
  revert x. induction l as [|y l IH]; intro x; simpl.
  - split; [left; reflexivity|].
    constructor; [apply Qle_refl | constructor].
  - destruct (IH (Py.max x y)) as (Hin & Hall). cbv zeta in Hin, Hall.
    inversion Hall as [|? ? Hm Hl]; subst.
    split.
    + destruct Hin as [H|H].
      * destruct (max_choice x y) as [E|E]; [left | right; left];
          rewrite <- H; symmetry; exact E.
      * right. right. exact H.
    + constructor; [|constructor]; try assumption.
      * eapply Qle_trans; [apply max_le_l | exact Hm].
      * eapply Qle_trans; [apply max_le_r | exact Hm].
Qed.

End Totals.

Section TotalCost.

Import Models ClaimReview Samples.

Lemma realtime_totals (s : Session) (a : Assessment) :
  calculate_fraud_realtime s = Py.Ok (Assessed a) ->
  actual_damage_min a == elementwise_sum min_of (q_assessments s) /\
  actual_damage_max a == elementwise_sum max_of (q_assessments s).
Proof.
  intro Hrun. apply calculate_assessed in Hrun.
  destruct Hrun as (claim & fs & f3 & o3 & _ & _ & _ & Hrest).
  cbv zeta in Hrest. destruct Hrest as (-> & -> & _).
  split; apply sum_is_elementwise_sum.
Qed.

Lemma summary_totals (l : list DamageAssessment) :
  Forall complete l ->
  exists r,
    DamageAssessmentService.get_assessment_summary l = Py.Ok r /\
    DamageAssessmentService.total_cost_estimate_min r
      == elementwise_sum min_of l /\
    DamageAssessmentService.total_cost_estimate_max r
      == elementwise_sum max_of l.
Proof.
  intro Hall. destruct l as [|a rest].
  - eexists. split; [reflexivity|]. simpl. split; reflexivity.
  - assert (Hmin : Forall (fun o : option Q => o <> None)
                          (map estimated_cost_min (a :: rest))).
    { apply Forall_map. eapply Forall_impl; [|exact Hall].
      intros x Hx. apply Hx. }
    assert (Hmax : Forall (fun o : option Q => o <> None)
                          (map estimated_cost_max (a :: rest))).
    { apply Forall_map. eapply Forall_impl; [|exact Hall].
      intros x Hx. apply Hx. }
    assert (Hty : Forall (fun o : option DamageType => o <> None)
                         (map damage_type (a :: rest))).
    { apply Forall_map. eapply Forall_impl; [|exact Hall].
      intros x Hx. apply Hx. }
    destruct (sum_strict_ok _ 0 Hmin) as (tmin & Etmin & Hmin').
    destruct (sum_strict_ok _ 0 Hmax) as (tmax & Etmax & Hmax').
    destruct (values_ok _ Hty) as (ts & Ets).
    assert (Hsev : exists sv,
               severity (DamageAssessmentService.max_by_severity a rest)
               = Some sv).
    { pose proof (max_by_severity_in a rest) as Hin.
      rewrite Forall_forall in Hall. apply Hall in Hin.
      destruct Hin as (_ & Hs & _).
      destruct (severity _) as [sv|]; [eauto|congruence]. }
    destruct Hsev as (sv & Esv).
    unfold DamageAssessmentService.get_assessment_summary.
    rewrite Etmin. cbn [Py.bind]. rewrite Etmax. cbn [Py.bind].
    rewrite Ets. cbn [Py.bind]. rewrite Esv.
    eexists. split; [reflexivity|].
    cbn [DamageAssessmentService.total_cost_estimate_min
         DamageAssessmentService.total_cost_estimate_max].
    rewrite elementwise_sum_map in Hmin', Hmax'.
    split.
    + rewrite Hmin'. apply Qplus_0_l.
    + rewrite Hmax'. apply Qplus_0_l.
Qed.

Lemma aggregate_takes_maximum
      (analyses : list VisionAnalyzer.Analysis)
      (r : VisionAnalyzer.Aggregated) :
  VisionAnalyzer._aggregate_analyses analyses = VisionAnalyzer.Success r ->
  let successful := filter VisionAnalyzer.success analyses in
  (exists a, In a successful /\
             VisionAnalyzer.agg_cost_min r = VisionAnalyzer.get_cost_min a) /\
  Forall (fun a => VisionAnalyzer.get_cost_min a
                   <= VisionAnalyzer.agg_cost_min r) successful /\
  (exists a, In a successful /\
             VisionAnalyzer.agg_cost_max r = VisionAnalyzer.get_cost_max a) /\
  Forall (fun a => VisionAnalyzer.get_cost_max a
                   <= VisionAnalyzer.agg_cost_max r) successful.
Proof.
  unfold VisionAnalyzer._aggregate_analyses.
  destruct analyses as [|a0 rest0]; [discriminate|].
  destruct (filter VisionAnalyzer.success (a0 :: rest0)) as [|a rest];
    [discriminate|].
  intro H. injection H as <-. cbv zeta. simpl.
  pose proof (fold_max_spec (map VisionAnalyzer.get_cost_min rest)
                            (VisionAnalyzer.get_cost_min a)) as (Hi1 & Ha1).
  pose proof (fold_max_spec (map VisionAnalyzer.get_cost_max rest)
                            (VisionAnalyzer.get_cost_max a)) as (Hi2 & Ha2).
  cbv zeta in Hi1, Ha1, Hi2, Ha2.
  change (VisionAnalyzer.get_cost_min a
            :: map VisionAnalyzer.get_cost_min rest)
    with (map VisionAnalyzer.get_cost_min (a :: rest)) in Hi1, Ha1.
  change (VisionAnalyzer.get_cost_max a
            :: map VisionAnalyzer.get_cost_max rest)
    with (map VisionAnalyzer.get_cost_max (a :: rest)) in Hi2, Ha2.
  apply in_map_iff in Hi1. destruct Hi1 as (x1 & E1 & I1).
  apply in_map_iff in Hi2. destruct Hi2 as (x2 & E2 & I2).
  rewrite Forall_map in Ha1, Ha2.
  split; [exists x1; split; [exact I1 | symmetry; exact E1]|].
  split; [exact Ha1|].
  split; [exists x2; split; [exact I2 | symmetry; exact E2]|].
  exact Ha2.
Qed.

(** C8, as the specification states it, fails: the analyzer's own
    aggregation of two images estimated at 1500 to 3500 and 150 to 500
    reports 1500 to 3500, not the sum 1650 to 4000; and a stored image
    whose estimate has its bounds inverted gives the summary a total
    minimum above its total maximum. *)
Lemma aggregation_is_not_always_an_ordered_sum :
  (exists r,
      VisionAnalyzer._aggregate_analyses
        [analysis_with 1500 3500; analysis_with 150 500]
        = VisionAnalyzer.Success r /\
      VisionAnalyzer.agg_cost_min r == 1500 /\
      VisionAnalyzer.agg_cost_max r == 3500 /\
      ~ VisionAnalyzer.agg_cost_min r == 1500 + 150 /\
      ~ VisionAnalyzer.agg_cost_max r == 3500 + 500) /\
  (exists r,
      DamageAssessmentService.get_assessment_summary [assessed 3000 1000]
        = Py.Ok r /\
      ~ DamageAssessmentService.total_cost_estimate_min r
        <= DamageAssessmentService.total_cost_estimate_max r).
Proof.
  split; eexists; (split; [reflexivity|]).
  - repeat split; vm_compute; congruence.
  - vm_compute. intro H. apply H. reflexivity.
Qed.

End TotalCost.

Section TotalCostRule.

Import Models ClaimReview Samples.

(** C8, amended.  For every sequence of stored assessments, the totals
    computed by the real-time evaluation and by
    [get_assessment_summary] are the sums of the per-image minima and of
    the per-image maxima, and the total minimum is at most the total
    maximum whenever every image has its minimum at most its maximum.
    [_aggregate_analyses] instead reports the largest minimum and the
    largest maximum found among the successful analyses. *)
Theorem total_cost_is_elementwise_sum :
  (forall (s : Session) (a : Assessment),
      calculate_fraud_realtime s = Py.Ok (Assessed a) ->
      actual_damage_min a == elementwise_sum min_of (q_assessments s) /\
      actual_damage_max a == elementwise_sum max_of (q_assessments s) /\
      (Forall ordered (q_assessments s) ->
       actual_damage_min a <= actual_damage_max a)) /\
  (forall l : list DamageAssessment,
      Forall complete l ->
      exists r,
        DamageAssessmentService.get_assessment_summary l = Py.Ok r /\
        DamageAssessmentService.total_cost_estimate_min r
          == elementwise_sum min_of l /\
        DamageAssessmentService.total_cost_estimate_max r
          == elementwise_sum max_of l /\
        (Forall ordered l ->
         DamageAssessmentService.total_cost_estimate_min r
           <= DamageAssessmentService.total_cost_estimate_max r)) /\
  (forall (analyses : list VisionAnalyzer.Analysis)
          (r : VisionAnalyzer.Aggregated),
      VisionAnalyzer._aggregate_analyses analyses
        = VisionAnalyzer.Success r ->
      let successful := filter VisionAnalyzer.success analyses in
      (exists a, In a successful /\
         VisionAnalyzer.agg_cost_min r = VisionAnalyzer.get_cost_min a) /\
      Forall (fun a => VisionAnalyzer.get_cost_min a
                       <= VisionAnalyzer.agg_cost_min r) successful /\
      (exists a, In a successful /\
         VisionAnalyzer.agg_cost_max r = VisionAnalyzer.get_cost_max a) /\
      Forall (fun a => VisionAnalyzer.get_cost_max a
                       <= VisionAnalyzer.agg_cost_max r) successful).
Proof.
  split; [|split].
  - intros s a Hrun.
    destruct (realtime_totals s a Hrun) as (Hmin & Hmax).
    split; [exact Hmin|]. split; [exact Hmax|].
    intro Hord. rewrite Hmin, Hmax.
    apply elementwise_sum_le. exact Hord.
  - intros l Hall.
    destruct (summary_totals l Hall) as (r & Hr & Hmin & Hmax).
    exists r. split; [exact Hr|]. split; [exact Hmin|].
    split; [exact Hmax|].
    intro Hord. rewrite Hmin, Hmax.
    apply elementwise_sum_le. exact Hord.
  - exact aggregate_takes_maximum.
Qed.

Lemma total_cost_is_elementwise_sum_witness :
  let a := assessment_of_session over_claimed in
  actual_damage_min a
    == elementwise_sum min_of (q_assessments over_claimed) /\
  actual_damage_max a
    == elementwise_sum max_of (q_assessments over_claimed) /\
  (Forall ordered (q_assessments over_claimed) ->
   actual_damage_min a <= actual_damage_max a).
Proof.
  exact (proj1 total_cost_is_elementwise_sum over_claimed
           (assessment_of_session over_claimed) eq_refl).
Defined.

End TotalCostRule.

(** ** Damage-type normalisation *)

Section Normalisation.

Import RepairKnowledgeBase.

Lemma normalize_unfold (c : ascii) (s : string) :
  normalize (String c s) = String (normalize_char c) (normalize s).
Proof. reflexivity. Qed.

Lemma normalize_char_idempotent (c : ascii) :
  normalize_char (normalize_char c) = normalize_char c.
Proof.
  destruct c as [[] [] [] [] [] [] [] []]; vm_compute; reflexivity.
Qed.

Lemma normalize_char_normal (c : ascii) :
  normal_char (normalize_char c) = true.
Proof.
  destruct c as [[] [] [] [] [] [] [] []]; vm_compute; reflexivity.
Qed.

(** C9.  [normalize] returns a string for every string, and normalising
    its result again changes nothing. *)
Theorem normalize_idempotent (s : string) :
  exists k : string,
    normalize s = k /\ normal k = true /\ normalize k = k.
Proof.
  exists (normalize s). split; [reflexivity|].
  induction s as [|c s [IHn IHi]].
  - split; reflexivity.
  - rewrite normalize_unfold. split.
    + simpl normal. rewrite normalize_char_normal. exact IHn.
    + rewrite normalize_unfold, normalize_char_idempotent, IHi.
      reflexivity.
Qed.

End Normalisation.

(** ** Stored per-image assessment *)

Section StoredAssessment.

Import Models DamageAssessmentService.

Lemma primary_loop_spec (damage_types : list string) (default : DamageType) :
  (exists pre dt post t,
      damage_types = pre ++ dt :: post /\
      Forall (fun x => recognized x = None) pre /\
      recognized dt = Some t /\
      primary_loop damage_types default = t) \/
  (Forall (fun x => recognized x = None) damage_types /\
   primary_loop damage_types default = default).
Proof.
  induction damage_types as [|dt rest IH].
  - right. split; [constructor | reflexivity].
  - change (primary_loop (dt :: rest) default)
      with (match recognized dt with
            | Some t => t
            | None => primary_loop rest default
            end).
    destruct (recognized dt) as [t|] eqn:E.
    + left. exists [], dt, rest, t.
      split; [reflexivity|]. split; [constructor|].
      split; [exact E | reflexivity].
    + destruct IH as [(pre & dt' & post & t & -> & Hpre & Hdt & Hres)
                     | (Hall & Hres)].
      * left. exists (dt :: pre), dt', post, t.
        split; [reflexivity|]. split; [constructor; assumption|].
        split; assumption.
      * right. split; [constructor; assumption | exact Hres].
Qed.

Lemma severity_of_unknown (k : string) :
  k <> "MINOR"%string -> k <> "MODERATE"%string ->
  k <> "MAJOR"%string -> k <> "TOTAL_LOSS"%string ->
  severity_of (Some k) = MODERATE.
Proof.
  intros H1 H2 H3 H4. unfold severity_of, severity_map. simpl.
  apply String.eqb_neq in H1, H2, H3, H4.
  rewrite H1, H2, H3, H4. reflexivity.
Qed.

Lemma assess_loop_spec (analyses : list VisionAnalyzer.Analysis) :
  assess_loop analyses
  = map assessment_of (filter VisionAnalyzer.success analyses).
Proof.
  induction analyses as [|a rest IH]; simpl; [reflexivity|].
  destruct (VisionAnalyzer.success a); simpl; rewrite IH; reflexivity.
Qed.

(** C10.  Every successfully analysed image gets one stored record; its
    damage type is the type mapped to the first detected type whose
    lower-cased form is a key of the damage-type map, and DENT when no
    detected type is recognised or none was detected; its severity is
    the one named by the analysis, and MODERATE for any other or missing
    severity string. *)
Theorem stored_damage_type_and_severity :
  (forall analyses : list VisionAnalyzer.Analysis,
      assess_loop analyses
      = map assessment_of (filter VisionAnalyzer.success analyses)) /\
  (forall analysis : VisionAnalyzer.Analysis,
      let detected :=
        match VisionAnalyzer.damage_types analysis with
        | Some l => l
        | None => []
        end in
      let r := assessment_of analysis in
      (exists t,
          damage_type r = Some t /\
          ((exists pre dt post,
               detected = pre ++ dt :: post /\
               Forall (fun x => recognized x = None) pre /\
               recognized dt = Some t) \/
           (Forall (fun x => recognized x = None) detected /\ t = DENT))) /\
      (VisionAnalyzer.severity analysis = Some "MINOR"%string ->
       severity r = Some MINOR) /\
      (VisionAnalyzer.severity analysis = Some "MODERATE"%string ->
       severity r = Some MODERATE) /\
      (VisionAnalyzer.severity analysis = Some "MAJOR"%string ->
       severity r = Some MAJOR) /\
      (VisionAnalyzer.severity analysis = Some "TOTAL_LOSS"%string ->
       severity r = Some TOTAL_LOSS) /\
      (~ In (VisionAnalyzer.severity analysis)
            [Some "MINOR"%string; Some "MODERATE"%string;
             Some "MAJOR"%string; Some "TOTAL_LOSS"%string] ->
       severity r = Some MODERATE)).
Proof.
  split; [exact assess_loop_spec|].
  intros analysis detected r.
  split.
  - exists (primary_damage_type_of detected). split; [reflexivity|].
    unfold primary_damage_type_of.
    destruct (primary_loop_spec detected DENT)
      as [(pre & dt & post & t & Hd & Hpre & Hdt & ->) | (Hall & ->)].
    + left. exists pre, dt, post. auto.
    + right. auto.
  - unfold r, assessment_of. simpl severity.
    repeat split; try (intros ->; reflexivity).
    intro Hnot.
    destruct (VisionAnalyzer.severity analysis) as [k|]; [|reflexivity].
    f_equal. apply severity_of_unknown; intros ->; apply Hnot; simpl; auto.
Qed.

Lemma stored_damage_type_and_severity_witness :
  let analysis := Samples.zero_floor_analysis in
  VisionAnalyzer.severity analysis = Some "MINOR"%string /\
  severity (assessment_of analysis) = Some MINOR.
Proof.
  cbv zeta. split; [reflexivity|].
  exact (proj1 (proj2 (proj2 stored_damage_type_and_severity
                         Samples.zero_floor_analysis)) eq_refl).
Defined.

End StoredAssessment.

(** ** Knowledge-base lookup *)

Section KnowledgeBase.

Import RepairKnowledgeBase.

(** C2.  The lookup for ["front-end-damage"] at severity ["moderate"]
    returns no breakdown entry and zero totals: the normalised name
    ["front_end_damage"] is not a key of [REPAIR_COSTS], whose row
    ["front-end-damage"] (3500 to 8000, 5 days) is therefore never
    reached. *)
Theorem front_end_damage_lookup :
  normalize "front-end-damage" = "front_end_damage"%string /\
  lookup "front_end_damage" REPAIR_COSTS = None /\
  get_repair_context ["front-end-damage"%string] (Some "moderate"%string)
    = Py.Ok {| damage_breakdown := [];
               total_cost_min := 0;
               total_cost_max := 0;
               estimated_repair_days := 0 |} /\
  (row <- getitem (Dict REPAIR_COSTS) "front-end-damage" ;;
   getitem row "moderate") = Py.Ok (cost 3500 8000 5) /\
  (row <- getitem (Dict REPAIR_COSTS) "front-end-damage" ;;
   getitem row "description")
    = Py.Ok (Text "Front bumper, grille, headlights, hood damage").
Proof. repeat split; reflexivity. Qed.

End KnowledgeBase.

(** ** The cost loop of the knowledge base *)

Section CostLoop.

Import RepairKnowledgeBase Reference.

Lemma normalize_normal (s : string) : normal (normalize s) = true.
Proof.
  induction s as [|c s IH]; [reflexivity|].
  rewrite normalize_unfold. simpl normal.
  rewrite normalize_char_normal. exact IH.
Qed.

Lemma cost_loop_invariant (P : Context -> Prop) (severity : option string) :
  (forall c t c', P c -> cost_step severity c t = Py.Ok c' -> P c') ->
  forall damage_types c c',
    P c -> cost_loop severity damage_types c = Py.Ok c' -> P c'.
Proof.
  intros Hstep damage_types.
  induction damage_types as [|t rest IH]; intros c c' Hc Hrun; simpl in Hrun.
  - injection Hrun as <-. exact Hc.
  - destruct (cost_step severity c t) as [c1|e] eqn:E; [|discriminate].
    simpl in Hrun. eapply IH; [|exact Hrun]. eapply Hstep; eassumption.
Qed.

Lemma lookup_costs_inv (k : string) (v : Value) :
  normal k = true ->
  lookup k REPAIR_COSTS = Some v ->
  In k REACHABLE.
Proof.
  intros Hn Hl. unfold REPAIR_COSTS in Hl. simpl in Hl.
  repeat match type of Hl with
         | context [String.eqb k ?x] =>
             let E := fresh "E" in
             destruct (String.eqb k x) eqn:E;
             [apply String.eqb_eq in E; subst k;
              first [discriminate Hn | simpl; tauto] |]
         end.
  discriminate.
Qed.


Ltac split_key s :=
  repeat match goal with
         | |- context [String.eqb s ?x] =>
             let E := fresh "E" in
             destruct (String.eqb s x) eqn:E;
             [apply String.eqb_eq in E; subst s
             |apply String.eqb_neq in E]
         end.

(** One iteration of the cost loop: an unknown name is skipped, a
    severity naming a non-row key of the entry raises, anything else adds
    a table row. *)
Lemma cost_step_cases (severity : option string) (c : Context) (t : string) :
  let sev := severity_or_moderate severity in
  (priced t = false /\ cost_step severity c t = Py.Ok c) \/
  (priced t = true /\ In sev OTHER_KEYS /\
   cost_step severity c t = Py.Raise Py.TypeError) \/
  (priced t = true /\ ~ In sev OTHER_KEYS /\
   exists e,
     cost_step severity c t = Py.Ok (push c e) /\
     type e = t /\
     In (normalize t) REACHABLE /\
     (In sev ROW_NAMES -> RepairKnowledgeBase.severity e = sev) /\
     (~ In sev ROW_NAMES ->
      RepairKnowledgeBase.severity e = "moderate"%string) /\
     (0 < cost_min e <= cost_max e)%Z /\
     (1 <= repair_days e)%Z /\
     ((7 < repair_days e)%Z <->
      normalize t = "crushed"%string /\
      RepairKnowledgeBase.severity e <> "minor"%string)).
Proof.
  intro sev. unfold cost_step, priced. fold sev.
  destruct (lookup (normalize t) REPAIR_COSTS) as [data|] eqn:E;
    [|left; split; reflexivity].
  right.
  pose proof (lookup_costs_inv _ _ (normalize_normal t) E) as Hk.
  generalize dependent (normalize t). intros k E Hk.
  generalize dependent sev. intro s.
  simpl in Hk.
  destruct Hk as [<-|[<-|[<-|[<-|[]]]]]; vm_compute in E; injection E as <-;
    cbn; split_key s; cbn.
  all: try (left; split; [reflexivity|]; split; [simpl; tauto | reflexivity]).
  all: right; split; [reflexivity|]; split; [ simpl; intuition congruence|].
  all: match goal with |- context [damage_breakdown _ ++ [?x]] => exists x end;
    split; [reflexivity|]; cbn.
  all: repeat split; intros; try reflexivity; try lia; try discriminate.
  all: simpl in *; intuition (try congruence; try lia; try discriminate).
Qed.

Lemma cost_step_fallback (severity : option string) (c : Context)
      (t : string) :
  ~ In (severity_or_moderate severity) ROW_NAMES ->
  ~ In (severity_or_moderate severity) OTHER_KEYS ->
  cost_step severity c t = cost_step (Some "moderate"%string) c t.
Proof.
  unfold cost_step.
  destruct (lookup (normalize t) REPAIR_COSTS) as [data|] eqn:E;
    [|reflexivity].
  pose proof (lookup_costs_inv _ _ (normalize_normal t) E) as Hk.
  generalize dependent (normalize t). intros k E Hk.
  generalize (severity_or_moderate severity). intros s Hrow Hother.
  simpl in Hk.
  destruct Hk as [<-|[<-|[<-|[<-|[]]]]]; vm_compute in E; injection E as <-;
    cbn; split_key s; cbn; try reflexivity;
    exfalso; simpl in Hrow, Hother; tauto.
Qed.

Lemma fold_push (es : list Breakdown) (c : Context) :
  (0 <= estimated_repair_days c)%Z ->
  let c' := fold_left push es c in
  damage_breakdown c' = damage_breakdown c ++ es /\
  total_cost_min c' = (total_cost_min c + sum_of cost_min es)%Z /\
  total_cost_max c' = (total_cost_max c + sum_of cost_max es)%Z /\
  estimated_repair_days c'
  = Z.max (estimated_repair_days c) (longest_repair es).
Proof.
  revert c. induction es as [|e es IH]; intros c Hd0; simpl.
  - rewrite app_nil_r. repeat split; try reflexivity; lia.
  - destruct (IH (push c e)) as (Hb & Hmin & Hmax & Hd).
    { simpl. lia. }
    cbv zeta in Hb, Hmin, Hmax, Hd.
    rewrite Hb, Hmin, Hmax, Hd. simpl.
    rewrite <- app_assoc. repeat split; try reflexivity; lia.
Qed.

(** A run of the cost loop that returns has pushed one table row for each
    recognised name, in order. *)
Lemma cost_loop_ok (severity : option string) (damage_types : list string)
      (c c' : Context) :
  cost_loop severity damage_types c = Py.Ok c' ->
  exists es,
    c' = fold_left push es c /\
    map type es = filter priced damage_types /\
    Forall (table_row (severity_or_moderate severity)) es.
Proof.
  revert c. induction damage_types as [|t rest IH]; intros c Hrun.
  - simpl in Hrun. injection Hrun as <-. exists []. repeat split.
    constructor.
  - simpl in Hrun.
    destruct (cost_step_cases severity c t)
      as [(Hp & Hs) | [(Hp & _ & Hs) | (Hp & _ & e & Hs & Ht & Hfacts)]];
      cbv zeta in *; rewrite Hs in Hrun; simpl in Hrun.
    + destruct (IH _ Hrun) as (es & -> & Hty & Hall).
      exists es. simpl. rewrite Hp. auto.
    + discriminate.
    + destruct (IH _ Hrun) as (es & -> & Hty & Hall).
      exists (e :: es). simpl. rewrite Hp, Ht, Hty.
      repeat split. constructor; [|exact Hall].
      unfold table_row. rewrite Ht. exact Hfacts.
Qed.

(** The cost loop raises exactly when the severity names a non-row key
    and some name is recognised. *)
Lemma cost_loop_raises (severity : option string)
      (damage_types : list string) (c : Context) :
  (In (severity_or_moderate severity) OTHER_KEYS /\
   existsb priced damage_types = true /\
   cost_loop severity damage_types c = Py.Raise Py.TypeError) \/
  (~ (In (severity_or_moderate severity) OTHER_KEYS /\
      existsb priced damage_types = true) /\
   exists c', cost_loop severity damage_types c = Py.Ok c').
Proof.
  revert c. induction damage_types as [|t rest IH]; intro c.
  - right. split; [intros (_ & H); discriminate | exists c; reflexivity].
  - simpl.
    destruct (cost_step_cases severity c t)
      as [(Hp & Hs) | [(Hp & Ho & Hs) | (Hp & Ho & e & Hs & _)]];
      cbv zeta in *; rewrite Hs, Hp; simpl.
    + exact (IH c).
    + left. auto.
    + destruct (IH (push c e)) as [(Ho' & _) | (_ & c' & Hc')];
        [exfalso; exact (Ho Ho')|].
      right. split; [intros (H & _); exact (Ho H) | exists c'; exact Hc'].
Qed.

End CostLoop.

(** ** What the knowledge base returns *)

Section RepairContext.

Import RepairKnowledgeBase Reference.

Lemma priced_iff_reachable (t : string) :
  priced t = true <-> In (normalize t) REACHABLE.
Proof.
  unfold priced. split.
  - destruct (lookup (normalize t) REPAIR_COSTS) as [v|] eqn:E;
      [|discriminate].
    intros _. exact (lookup_costs_inv _ _ (normalize_normal t) E).
  - simpl. intros [<-|[<-|[<-|[<-|[]]]]]; reflexivity.
Qed.

Lemma sum_of_bounds (es : list Breakdown) (sev : string) :
  Forall (table_row sev) es ->
  (0 <= sum_of cost_min es <= sum_of cost_max es)%Z /\
  (0 <= longest_repair es)%Z.
Proof.
  induction 1 as [|e es He _ IH]; simpl; [lia|].
  destruct He as (_ & _ & _ & Hc & Hd & _). lia.
Qed.

(** X1.  The breakdown lists exactly the submitted names that the cost
    table recognises, in their order; a name is recognised exactly when it
    normalises to dent, scratch, broken_glass or crushed, so the three rows
    keyed with hyphens are never returned for any input. *)
Theorem breakdown_lists_recognised_names :
  (forall t : string, priced t = true <-> In (normalize t) REACHABLE) /\
  (forall t : string, In t HYPHENATED -> priced t = false) /\
  (forall (damage_types : list string) (severity : option string)
          (context : Context),
      get_repair_context damage_types severity = Py.Ok context ->
      map type (damage_breakdown context) = filter priced damage_types).
Proof.
  split; [exact priced_iff_reachable|]. split.
  - simpl. intros t [<-|[<-|[<-|[]]]]; reflexivity.
  - intros damage_types severity context Hrun.
    unfold get_repair_context in Hrun.
    apply cost_loop_ok in Hrun. destruct Hrun as (es & -> & Hty & _).
    destruct (fold_push es empty_context) as (Hb & _); [simpl; lia|].
    cbv zeta in Hb. rewrite Hb. exact Hty.
Qed.

Lemma breakdown_lists_recognised_names_witness :
  let damage_types :=
    ["Dent"; "front-end-damage"; "Broken Glass"; "rust"]%string in
  exists context,
    get_repair_context damage_types (Some "minor"%string) = Py.Ok context /\
    map type (damage_breakdown context) = ["Dent"; "Broken Glass"]%string.
Proof.
  cbv zeta. eexists. split; [reflexivity|].
  exact (proj2 (proj2 breakdown_lists_recognised_names)
           ["Dent"; "front-end-damage"; "Broken Glass"; "rust"]%string
           (Some "minor"%string) _ eq_refl).
Defined.

(** X2.  Whenever the lookup returns, its totals are the sums of the
    minima and of the maxima of the breakdown entries, the repair time is
    the longest of theirs, every entry has [0 < cost_min <= cost_max], and
    so [0 <= total_cost_min <= total_cost_max]. *)
Theorem context_totals
        (damage_types : list string) (severity : option string)
        (context : Context) :
  get_repair_context damage_types severity = Py.Ok context ->
  total_cost_min context = sum_of cost_min (damage_breakdown context) /\
  total_cost_max context = sum_of cost_max (damage_breakdown context) /\
  estimated_repair_days context
  = longest_repair (damage_breakdown context) /\
  Forall (fun e => (0 < cost_min e <= cost_max e)%Z /\
                   (1 <= repair_days e)%Z)
         (damage_breakdown context) /\
  (0 <= total_cost_min context <= total_cost_max context)%Z /\
  (List.length (damage_breakdown context) <= List.length damage_types)%nat.
Proof.
  intro Hrun. unfold get_repair_context in Hrun.
  apply cost_loop_ok in Hrun. destruct Hrun as (es & -> & Hty & Hall).
  destruct (fold_push es empty_context) as (Hb & Hmin & Hmax & Hd);
    [simpl; lia|].
  cbv zeta in Hb, Hmin, Hmax, Hd. simpl in Hb, Hmin, Hmax, Hd.
  destruct (sum_of_bounds es _ Hall) as (Hsum & Hlong).
  rewrite Hb, Hmin, Hmax, Hd.
  repeat split; try lia.
  - eapply Forall_impl; [|exact Hall].
    intros e (_ & _ & _ & Hc & Hdays & _). split; assumption.
  - rewrite <- (length_map type es), Hty. apply filter_length_le.
Qed.

Lemma context_totals_witness :
  exists context,
    get_repair_context ["dent"; "crushed"]%string (Some "major"%string)
      = Py.Ok context /\
    total_cost_min context = sum_of cost_min (damage_breakdown context) /\
    (0 <= total_cost_min context <= total_cost_max context)%Z.
Proof.
  eexists. split; [reflexivity|].
  pose proof (context_totals ["dent"; "crushed"]%string
                (Some "major"%string) _ eq_refl) as H.
  split; [exact (proj1 H) | exact (proj1 (proj2 (proj2 (proj2 (proj2 H)))))].
Defined.

(** X3.  The lookup raises, with a [TypeError], exactly when the severity
    is ["description"] or ["common_parts"] (keys of a table entry that are
    not cost rows) and at least one submitted name is recognised; in every
    other case it returns a context. *)
Theorem get_repair_context_raises
        (damage_types : list string) (severity : option string) :
  let sev := severity_or_moderate severity in
  let bad := In sev OTHER_KEYS /\ existsb priced damage_types = true in
  (bad -> get_repair_context damage_types severity
          = Py.Raise Py.TypeError) /\
  (~ bad -> exists context,
       get_repair_context damage_types severity = Py.Ok context) /\
  (forall e, get_repair_context damage_types severity = Py.Raise e ->
             bad /\ e = Py.TypeError).
Proof.
  intros sev bad. unfold get_repair_context.
  destruct (cost_loop_raises severity damage_types empty_context)
    as [(Ho & Hp & Hr) | (Hn & c' & Hc')].
  - split; [intros _; exact Hr|]. split.
    + intro Hnb. exfalso. apply Hnb. split; assumption.
    + intros e He. rewrite Hr in He. injection He as <-.
      split; [split; assumption | reflexivity].
  - split; [intro Hb; exfalso; exact (Hn Hb)|]. split.
    + intros _. exists c'. exact Hc'.
    + intros e He. rewrite Hc' in He. discriminate.
Qed.

Lemma get_repair_context_raises_witness :
  get_repair_context ["rust"; "Scratch"]%string (Some "description"%string)
  = Py.Raise Py.TypeError.
Proof.
  apply (proj1 (get_repair_context_raises ["rust"; "Scratch"]%string
                  (Some "description"%string))).
  split; [simpl; tauto | reflexivity].
Defined.

(** X4.  A severity that names neither a cost row nor another key of the
    entries (a missing or empty one, "total loss", any unknown word) is
    priced exactly like ["moderate"]. *)
Theorem unknown_severity_priced_as_moderate
        (damage_types : list string) (severity : option string) :
  ~ In (severity_or_moderate severity) ROW_NAMES ->
  ~ In (severity_or_moderate severity) OTHER_KEYS ->
  get_repair_context damage_types severity
  = get_repair_context damage_types (Some "moderate"%string).
Proof.
  intros Hrow Hother. unfold get_repair_context.
  generalize empty_context.
  induction damage_types as [|t rest IH]; intro c; simpl; [reflexivity|].
  rewrite (cost_step_fallback severity c t Hrow Hother).
  destruct (cost_step (Some "moderate"%string) c t) as [c1|e]; simpl;
    [apply IH | reflexivity].
Qed.

Lemma unknown_severity_priced_as_moderate_witness :
  get_repair_context ["crushed"]%string (Some "total loss"%string)
  = get_repair_context ["crushed"]%string (Some "moderate"%string).
Proof.
  apply (unknown_severity_priced_as_moderate ["crushed"]%string
           (Some "total loss"%string));
    simpl; intuition discriminate.
Defined.

End RepairContext.

(** ** Similar scenarios *)

Section SimilarScenarios.

Import RepairKnowledgeBase RepairScenarios.





Lemma insert_permutation (m : Match) (l : list Match) :
  Permutation (insert_by_relevance m l) (m :: l).
Proof.
  induction l as [|m' l IH]; simpl; [apply Permutation_refl|].
  destruct (Py.lt (relevance m) (relevance m')).
  - eapply Permutation_trans; [apply perm_skip, IH | apply perm_swap].
  - apply Permutation_refl.
Qed.

Lemma sort_permutation (l : list Match) :
  Permutation (sort_by_relevance l) l.
Proof.
  induction l as [|m l IH]; simpl; [constructor|].
  eapply Permutation_trans; [apply insert_permutation|].
  apply perm_skip, IH.
Qed.






End SimilarScenarios.

(** ** Recommendations *)

Section Recommendations.

Import RepairKnowledgeBase RepairScenarios Reference.

Lemma lower_char_of_normalize (c : ascii) :
  Ascii.eqb (normalize_char c) "_" = false ->
  Str.lower_char c = normalize_char c.
Proof.
  destruct c as [[] [] [] [] [] [] [] []]; vm_compute;
    intro H; first [reflexivity | discriminate H].
Qed.

Lemma lower_of_normalize (t : string) :
  no_underscore (normalize t) = true -> Str.lower t = normalize t.
Proof.
  induction t as [|c t IH]; [reflexivity|].
  rewrite normalize_unfold. simpl no_underscore.
  intro H. apply andb_true_iff in H. destruct H as (Hc & Ht).
  apply negb_true_iff in Hc.
  simpl Str.lower. rewrite (lower_char_of_normalize c Hc), (IH Ht).
  reflexivity.
Qed.

Lemma normalize_of_lower (t k : string) :
  Str.lower t = k -> normalize t = Str.replace "-" "_" (Str.replace " " "_" k).
Proof. intros <-. reflexivity. Qed.

Lemma lower_crushed_iff (t : string) :
  Str.lower t = "crushed"%string <-> normalize t = "crushed"%string.
Proof.
  split; intro H.
  - rewrite (normalize_of_lower t _ H). reflexivity.
  - rewrite lower_of_normalize; [exact H | rewrite H; reflexivity].
Qed.

Lemma longest_repair_above (es : list Breakdown) (d : Z) :
  (0 <= d)%Z ->
  ((d < longest_repair es)%Z <-> exists e, In e es /\ (d < repair_days e)%Z).
Proof.
  intro Hd. induction es as [|e es IH]; simpl.
  - split; [lia | intros (e & [] & _)].
  - split.
    + intro H. destruct (Z_lt_dec d (repair_days e)) as [Hlt|Hge].
      * exists e. auto.
      * assert (Hl : (d < longest_repair es)%Z) by lia.
        apply IH in Hl. destruct Hl as (e' & Hin & He'). exists e'. auto.
    + intros (e' & [<-|Hin] & He'); [lia|].
      assert (d < longest_repair es)%Z by (apply IH; eauto). lia.
Qed.

Lemma advice_members (context : Context) (damage_types : list string) :
  let advice := recommendations context damage_types in
  (In STRUCTURAL advice <-> (15000 < total_cost_max context)%Z) /\
  (In RENTAL advice <-> (7 < estimated_repair_days context)%Z) /\
  (In TOTAL_LOSS_EVALUATION advice
   <-> existsb (fun d => String.eqb (Str.lower (type d)) "crushed")
               (damage_breakdown context) = true) /\
  (In COMPREHENSIVE advice <-> (3 <= List.length damage_types)%nat).
Proof.
  cbv zeta. unfold recommendations.
  rewrite <- Z.ltb_lt, <- Z.ltb_lt, <- Nat.leb_le.
  destruct (15000 <? total_cost_max context)%Z;
    destruct (7 <? estimated_repair_days context)%Z;
    destruct (existsb _ (damage_breakdown context));
    destruct (3 <=? List.length damage_types)%nat;
    simpl; repeat split; intros;
    try reflexivity; try discriminate; auto;
    repeat match goal with
           | H : _ \/ _ |- _ => destruct H
           | H : False |- _ => destruct H
           end; try discriminate.
Qed.

(** X6.  In the returned context the rental-vehicle advice is given
    exactly when a detected name normalises to "crushed" and the severity
    is not "minor", and the total-loss advice exactly when a detected name
    normalises to "crushed"; so the rental advice never comes without the
    total-loss advice, and no advice is given for an empty list of names. *)
Theorem advice_rules
        (damage_types : list string) (severity : option string)
        (rc : RepairContext) :
  repair_context damage_types severity = Py.Ok rc ->
  (In TOTAL_LOSS_EVALUATION (advice rc) <-> crushed_detected damage_types) /\
  (In RENTAL (advice rc)
   <-> crushed_detected damage_types /\
       severity_or_moderate severity <> "minor"%string) /\
  (In RENTAL (advice rc) -> In TOTAL_LOSS_EVALUATION (advice rc)) /\
  (In COMPREHENSIVE (advice rc) <-> (3 <= List.length damage_types)%nat) /\
  (damage_types = [] -> advice rc = []).
Proof.
  intro Hrun. unfold repair_context in Hrun.
  destruct (get_repair_context damage_types severity) as [ctx|e] eqn:E;
    [|discriminate].
  simpl in Hrun. injection Hrun as <-. simpl advice.
  pose proof (advice_members ctx damage_types) as (_ & Hrent & Htot & Hcomp).
  cbv zeta in Hrent, Htot, Hcomp.
  unfold get_repair_context in E. pose proof E as E0.
  apply cost_loop_ok in E. destruct E as (es & Hctx & Hty & Hall).
  destruct (fold_push es empty_context) as (Hb & _ & _ & Hd);
    [simpl; lia|].
  cbv zeta in Hb, Hd. rewrite <- Hctx in Hb, Hd. simpl in Hb, Hd.
  assert (Hdays : (0 <= longest_repair es)%Z)
    by exact (proj2 (sum_of_bounds es _ Hall)).
  rewrite Z.max_r in Hd by exact Hdays.
  assert (Hin : forall e, In e es ->
                          In (type e) damage_types /\ priced (type e) = true).
  { intros e He. apply (in_map type) in He. rewrite Hty in He.
    apply filter_In in He. exact He. }
  assert (Hcrushed : existsb (fun d => String.eqb (Str.lower (type d)) "crushed")
                             (damage_breakdown ctx) = true
                     <-> crushed_detected damage_types).
  { rewrite Hb, existsb_exists. split.
    - intros (e & He & Heq). apply String.eqb_eq in Heq.
      exists (type e). split; [apply Hin, He | apply lower_crushed_iff, Heq].
    - intros (t & Ht & Hn).
      assert (Hp : In t (filter priced damage_types)).
      { apply filter_In. split; [exact Ht|].
        apply priced_iff_reachable. rewrite Hn. simpl. tauto. }
      rewrite <- Hty in Hp. apply in_map_iff in Hp.
      destruct Hp as (e & He & Hine). exists e. split; [exact Hine|].
      apply String.eqb_eq. apply lower_crushed_iff. rewrite He. exact Hn. }
  assert (Hrental : (7 < estimated_repair_days ctx)%Z
                    <-> crushed_detected damage_types /\
                        severity_or_moderate severity <> "minor"%string).
  { rewrite Hd, (longest_repair_above es 7) by lia. split.
    - intros (e & He & Hlt).
      rewrite Forall_forall in Hall. pose proof (Hall e He) as Hrow.
      destruct Hrow as (_ & Hsev & _ & _ & _ & Hiff).
      apply Hiff in Hlt. destruct Hlt as (Hn & Hne).
      split; [exists (type e); split; [apply Hin, He | exact Hn]|].
      intro Hminor. apply Hne.
      rewrite <- Hminor. apply Hsev. rewrite Hminor. simpl. tauto.
    - intros ((t & Ht & Hn) & Hne).
      assert (Hp : In t (filter priced damage_types)).
      { apply filter_In. split; [exact Ht|].
        apply priced_iff_reachable. rewrite Hn. simpl. tauto. }
      rewrite <- Hty in Hp. apply in_map_iff in Hp.
      destruct Hp as (e & He & Hine). exists e. split; [exact Hine|].
      rewrite Forall_forall in Hall. pose proof (Hall e Hine) as Hrow.
      destruct Hrow as (_ & Hsev & Hfall & _ & _ & Hiff).
      apply Hiff. rewrite He. split; [exact Hn|].
      destruct (in_dec string_dec (severity_or_moderate severity) ROW_NAMES)
        as [Hr|Hr].
      + rewrite (Hsev Hr). exact Hne.
      + rewrite (Hfall Hr). discriminate. }
  split; [rewrite Htot; exact Hcrushed|].
  split; [rewrite Hrent; exact Hrental|].
  split.
  - rewrite Hrent, Htot, Hrental, Hcrushed. tauto.
  - split; [exact Hcomp|].
    intros ->. simpl in E0. injection E0 as <-. reflexivity.
Qed.

Lemma advice_rules_witness :
  exists rc,
    repair_context ["Crushed"; "dent"]%string (Some "major"%string)
      = Py.Ok rc /\
    (In RENTAL (advice rc) -> In TOTAL_LOSS_EVALUATION (advice rc)).
Proof.
  eexists. split; [reflexivity|].
  exact (proj1 (proj2 (proj2 (advice_rules
                                ["Crushed"; "dent"]%string
                                (Some "major"%string) _ eq_refl)))).
Defined.

End Recommendations.

(** ** Augmentation of a parsed analysis *)

Section Augmentation.

Import RepairKnowledgeBase RepairScenarios Reference.

Lemma filter_nonempty {A : Type} (f : A -> bool) (l : list A) :
  (0 < List.length (filter f l))%nat <-> exists x, In x l /\ f x = true.
Proof.
  induction l as [|a l IH]; simpl.
  - split; [lia | intros (x & [] & _)].
  - destruct (f a) eqn:E; simpl.
    + split; [intros _; exists a; auto | lia].
    + rewrite IH. split.
      * intros (x & Hx & Hf). exists x. auto.
      * intros (x & [<-|Hx] & Hf); [congruence | exists x; auto].
Qed.

Lemma match_scenario_some (damage_types : list string) (s : Scenario.t) :
  (exists m, match_scenario damage_types s = Some m)
  <-> shares_name damage_types s.
Proof.
  unfold match_scenario, shares_name, overlap, normalized_set.
  destruct (0 <? _)%nat eqn:E.
  - apply Nat.ltb_lt in E. apply filter_nonempty in E.
    destruct E as (k & Hk & Hex).
    apply nodup_In in Hk. apply existsb_exists in Hex.
    destruct Hex as (k' & Hk' & Heq). apply String.eqb_eq in Heq. subst k'.
    apply nodup_In in Hk'.
    split; [intros _; exists k; auto | intros _; eexists; reflexivity].
  - apply Nat.ltb_ge in E. split; [intros (m & Hm); discriminate|].
    intros (k & Hk & Hk'). exfalso.
    assert (H : (0 < List.length
                       (filter
                          (fun k0 =>
                             existsb (String.eqb k0)
                               (nodup string_dec (map normalize damage_types)))
                          (nodup string_dec
                                 (map normalize (Scenario.damage_types s)))))%nat).
    { apply filter_nonempty. exists k. split; [apply nodup_In, Hk|].
      apply existsb_exists. exists k.
      split; [apply nodup_In, Hk' | apply String.eqb_refl]. }
    lia.
Qed.

Lemma matches_nonempty (damage_types : list string)
      (scenarios : list Scenario.t) :
  matches damage_types scenarios <> []
  <-> exists s, In s scenarios /\ shares_name damage_types s.
Proof.
  induction scenarios as [|s rest IH]; simpl.
  - split; [congruence | intros (s & [] & _)].
  - destruct (match_scenario damage_types s) as [m|] eqn:E.
    + split; [|discriminate]. intros _. exists s. split; [auto|].
      apply match_scenario_some. eauto.
    + rewrite IH. split.
      * intros (s' & Hs' & Hsh). exists s'. auto.
      * intros (s' & [<-|Hs'] & Hsh); [|exists s'; auto].
        apply match_scenario_some in Hsh. destruct Hsh as (m & Hm).
        congruence.
Qed.

Lemma similar_scenarios_nonempty (damage_types : list string) :
  similar_scenarios damage_types <> []
  <-> some_scenario_shares_name damage_types.
Proof.
  unfold similar_scenarios, some_scenario_shares_name.
  rewrite <- matches_nonempty.
  pose proof (sort_permutation (matches damage_types REPAIR_SCENARIOS)) as P.
  split; intros H Hnil.
  - apply H. rewrite Hnil. reflexivity.
  - rewrite Hnil in P. apply Permutation_nil in P. exact (H P).
Qed.

(** X7.  The augmentation rates its cost estimate "high" exactly when
    some repair scenario shares a normalised name with the detected
    names, and "medium" otherwise; the estimate itself is always the
    knowledge-base total, and the augmentation fails only where the
    lookup does. *)
Theorem augmentation_confidence
        (detected_damages : list string) (severity : option string) :
  (forall r,
      RepairRAGService.augment_damage_assessment detected_damages severity
        = Py.Ok r ->
      (RepairRAGService.cost_estimate_confidence r = "high"%string
       <-> some_scenario_shares_name detected_damages) /\
      (RepairRAGService.cost_estimate_confidence r = "medium"%string
       <-> ~ some_scenario_shares_name detected_damages) /\
      get_repair_context detected_damages severity
        = Py.Ok (costs (RepairRAGService.repair_context r)) /\
      RepairRAGService.cost_estimate_min r
        = total_cost_min (costs (RepairRAGService.repair_context r)) /\
      RepairRAGService.cost_estimate_max r
        = total_cost_max (costs (RepairRAGService.repair_context r))) /\
  (forall e,
      RepairRAGService.augment_damage_assessment detected_damages severity
        = Py.Raise e
      <-> get_repair_context detected_damages severity = Py.Raise e).
Proof.
  unfold RepairRAGService.augment_damage_assessment, repair_context.
  destruct (get_repair_context detected_damages severity) as [ctx|err];
    simpl.
  - split; [|intro e; split; discriminate].
    intros r H. injection H as <-. simpl.
    pose proof (similar_scenarios_nonempty detected_damages) as Hne.
    destruct (similar_scenarios detected_damages) as [|m l].
    + repeat split; try discriminate; try reflexivity.
      * intro H. apply Hne in H. congruence.
      * intros _ H. apply Hne in H. congruence.
    + repeat split; try discriminate; try reflexivity.
      * intros _. apply Hne. discriminate.
      * intro H. exfalso. apply H. apply Hne. discriminate.
  - split; [intros r H; discriminate|].
    intro e. split; intro H; injection H as <-; reflexivity.
Qed.

Lemma augmentation_confidence_witness :
  exists r,
    RepairRAGService.augment_damage_assessment
      ["rear-end-damage"]%string (Some "minor"%string) = Py.Ok r /\
    (RepairRAGService.cost_estimate_confidence r = "high"%string
     <-> some_scenario_shares_name ["rear-end-damage"]%string).
Proof.
  eexists. split; [reflexivity|].
  exact (proj1 (proj1 (augmentation_confidence
                         ["rear-end-damage"]%string (Some "minor"%string))
                      _ eq_refl)).
Defined.

End Augmentation.

Section Override.

Import RepairKnowledgeBase RepairScenarios Reference VisionAnalyzer.

Lemma augment_unaugmented (a : Analysis) :
  success a = false \/ damage_types a = None \/ damage_types a = Some [] ->
  Augmented.augment a
  = Py.Ok {| Augmented.analysis := a;
             Augmented.cost_estimate_source := None;
             Augmented.similar_scenarios := [];
             Augmented.recommendations := [] |}.
Proof.
  unfold Augmented.augment.
  intros [H | [H | H]]; rewrite H; [reflexivity| |];
    destruct (success a); reflexivity.
Qed.

Lemma augment_returns (a : Analysis) (t : string) (rest : list string)
      (ctx : Context) :
  success a = true ->
  damage_types a = Some (t :: rest) ->
  get_repair_context (t :: rest) (Some (Augmented.rag_severity a))
    = Py.Ok ctx ->
  exists r,
    Augmented.augment a = Py.Ok r /\
    (some_scenario_shares_name (t :: rest) ->
     Augmented.analysis r
     = {| success := true;
          damage_types := Some (t :: rest);
          severity := severity a;
          cost_estimate :=
            Some {| cost_min := Some (inject_Z (total_cost_min ctx));
                    cost_max := Some (inject_Z (total_cost_max ctx)) |} |} /\
     Augmented.cost_estimate_source r = Some "RAG (Historical Data)"%string) /\
    (~ some_scenario_shares_name (t :: rest) ->
     Augmented.analysis r = a /\
     Augmented.cost_estimate_source r = Some "AI Estimate"%string).
Proof.
  intros Hs Hd Hctx.
  unfold Augmented.augment, RepairRAGService.augment_damage_assessment,
    repair_context.
  rewrite Hs, Hd, Hctx. cbn [Py.bind].
  pose proof (similar_scenarios_nonempty (t :: rest)) as Hne.
  destruct (similar_scenarios (t :: rest)) as [|m l]; cbn.
  - eexists. split; [reflexivity|]. cbn. split.
    + intro H. apply Hne in H. congruence.
    + intros _. split; reflexivity.
  - eexists. split; [reflexivity|]. cbn. split.
    + intros _. split; reflexivity.
    + intro H. exfalso. apply H, Hne. discriminate.
Qed.

Lemma augment_raises (a : Analysis) (t : string) (rest : list string)
      (e : Py.Error) :
  success a = true ->
  damage_types a = Some (t :: rest) ->
  get_repair_context (t :: rest) (Some (Augmented.rag_severity a))
    = Py.Raise e ->
  Augmented.augment a = Py.Raise e.
Proof.
  intros Hs Hd Hctx.
  unfold Augmented.augment, RepairRAGService.augment_damage_assessment,
    repair_context.
  rewrite Hs, Hd, Hctx. reflexivity.
Qed.

(** X8.  What [analyze_damage] does with a parsed reply.  A failed reply
    or one without detected names is passed on unchanged.  Otherwise, when
    some repair scenario shares a name with the detected ones, the cost
    estimate of the vision model is replaced by the knowledge-base totals,
    whatever it was; when none does, the reply is passed on unchanged;
    and when the lookup raises, the result is a failed analysis. *)
Theorem analysis_cost_override (a : Analysis) :
  let r := Augmented.analyze_parsed a in
  (success a = false \/ damage_types a = None \/ damage_types a = Some [] ->
   Augmented.analysis r = a /\ Augmented.cost_estimate_source r = None) /\
  (forall t rest,
      success a = true ->
      damage_types a = Some (t :: rest) ->
      (forall ctx,
          get_repair_context (t :: rest) (Some (Augmented.rag_severity a))
            = Py.Ok ctx ->
          (some_scenario_shares_name (t :: rest) ->
           cost_estimate (Augmented.analysis r)
           = Some {| cost_min := Some (inject_Z (total_cost_min ctx));
                     cost_max := Some (inject_Z (total_cost_max ctx)) |} /\
           success (Augmented.analysis r) = true /\
           Augmented.cost_estimate_source r
           = Some "RAG (Historical Data)"%string) /\
          (~ some_scenario_shares_name (t :: rest) ->
           Augmented.analysis r = a /\
           Augmented.cost_estimate_source r = Some "AI Estimate"%string)) /\
      (forall e,
          get_repair_context (t :: rest) (Some (Augmented.rag_severity a))
            = Py.Raise e ->
          r = Augmented.failure)).
Proof.
  cbv zeta. unfold Augmented.analyze_parsed. split.
  - intro H. rewrite (augment_unaugmented a H). split; reflexivity.
  - intros t rest Hs Hd. split.
    + intros ctx Hctx.
      destruct (augment_returns a t rest ctx Hs Hd Hctx)
        as (r & Hr & Hhigh & Hlow).
      rewrite Hr. split.
      * intro Hsh. destruct (Hhigh Hsh) as (Ha & Hsrc).
        rewrite Ha. repeat split. exact Hsrc.
      * exact Hlow.
    + intros e He. rewrite (augment_raises a t rest e Hs Hd He). reflexivity.
Qed.

Lemma analysis_cost_override_witness :
  let a := Samples.analysis_with 1500 3500 in
  let r := Augmented.analyze_parsed a in
  cost_estimate (Augmented.analysis r)
  = Some {| cost_min := Some (inject_Z 150);
            cost_max := Some (inject_Z 500) |} /\
  success (Augmented.analysis r) = true /\
  Augmented.cost_estimate_source r = Some "RAG (Historical Data)"%string.
Proof.
  cbv zeta.
  refine (proj1 (proj1 (proj2 (analysis_cost_override
                                 (Samples.analysis_with 1500 3500))
                              "dent"%string [] eq_refl eq_refl)
                       {| damage_breakdown := _;
                          total_cost_min := 150;
                          total_cost_max := 500;
                          estimated_repair_days := 1 |} eq_refl) _).
  exists (nth 0 REPAIR_SCENARIOS (Scenario.make "" [] "" (0, 0)%Z 0 "")).
  split; [simpl; tauto|].
  exists "dent"%string. split; simpl; tauto.
Defined.

End Override.

(** ** From the vision reply to the real-time check *)

Section Pipeline.

Import Models ClaimReview Samples RepairKnowledgeBase RepairScenarios.
Import Reference VisionAnalyzer.

Lemma hyphenated_not_priced (l : list string) :
  Forall (fun x => In x HYPHENATED) l ->
  filter priced l = [] /\ existsb priced l = false.
Proof.
  induction 1 as [|t l Ht _ (IHf & IHe)]; [split; reflexivity|].
  simpl in Ht. simpl.
  destruct Ht as [<-|[<-|[<-|[]]]]; cbn; auto.
Qed.

Lemma hyphenated_shares_name (t : string) (rest : list string) :
  In t HYPHENATED -> some_scenario_shares_name (t :: rest).
Proof.
  simpl. intros [<-|[<-|[<-|[]]]].
  - exists (nth 1 REPAIR_SCENARIOS (Scenario.make "" [] "" (0, 0)%Z 0 "")).
    split; [simpl; tauto|].
    exists "front_end_damage"%string. split; simpl; tauto.
  - exists (nth 4 REPAIR_SCENARIOS (Scenario.make "" [] "" (0, 0)%Z 0 "")).
    split; [simpl; tauto|].
    exists "rear_end_damage"%string. split; simpl; tauto.
  - exists (nth 2 REPAIR_SCENARIOS (Scenario.make "" [] "" (0, 0)%Z 0 "")).
    split; [simpl; tauto|].
    exists "side_impact_damage"%string. split; simpl; tauto.
Qed.

Lemma hyphenated_context (l : list string) (severity : option string) :
  Forall (fun x => In x HYPHENATED) l ->
  get_repair_context l severity = Py.Ok empty_context.
Proof.
  intro H. destruct (hyphenated_not_priced l H) as (Hf & He).
  unfold get_repair_context.
  destruct (cost_loop_raises severity l empty_context)
    as [(_ & Hp & _) | (_ & c' & Hc')]; [congruence|].
  rewrite Hc'. f_equal.
  apply cost_loop_ok in Hc'. destruct Hc' as (es & -> & Hty & _).
  rewrite Hf in Hty. apply map_eq_nil in Hty. subst es. reflexivity.
Qed.

Lemma stored_hyphenated (a : Analysis) :
  hyphenated_only a ->
  estimated_cost_min (stored_assessment a) = Some 0 /\
  estimated_cost_max (stored_assessment a) = Some 0.
Proof.
  intros (Hs & t & rest & Hd & Hall).
  pose proof (hyphenated_context (t :: rest)
                (Some (Augmented.rag_severity a)) Hall) as Hctx.
  destruct (augment_returns a t rest _ Hs Hd Hctx) as (r & Hr & Hhigh & _).
  assert (Hsh : some_scenario_shares_name (t :: rest)).
  { apply hyphenated_shares_name. inversion Hall; assumption. }
  destruct (Hhigh Hsh) as (Ha & _).
  unfold stored_assessment, Augmented.analyze_parsed.
  rewrite Hr, Ha. split; reflexivity.
Qed.

Lemma stored_hyphenated_sum (analyses : list Analysis) :
  Forall hyphenated_only analyses ->
  elementwise_sum min_of (map stored_assessment analyses) == 0 /\
  elementwise_sum max_of (map stored_assessment analyses) == 0.
Proof.
  induction 1 as [|a l Ha _ (IHmin & IHmax)]; [split; reflexivity|].
  destruct (stored_hyphenated a Ha) as (Hmin & Hmax).
  simpl. unfold min_of at 1, max_of at 1. rewrite Hmin, Hmax, IHmin, IHmax.
  split; reflexivity.
Qed.

(** X9.  An image for which the vision model detects only the hyphenated
    names of the cost table (front-end-damage, rear-end-damage,
    side-impact-damage) is stored with a cost estimate of 0 to 0, whatever
    the model estimated; a claim documented by such images only is never
    flagged for under- or over-claiming, whatever amount it claims. *)
Theorem hyphenated_detections_disable_amount_check :
  (forall a : Analysis,
      hyphenated_only a ->
      estimated_cost_min (stored_assessment a) = Some 0 /\
      estimated_cost_max (stored_assessment a) = Some 0) /\
  (forall (s : Session) (analyses : list Analysis) (r : Assessment),
      Forall hyphenated_only analyses ->
      q_assessments s = map stored_assessment analyses ->
      calculate_fraud_realtime s = Py.Ok (Assessed r) ->
      actual_damage_min r == 0 /\
      actual_damage_max r == 0 /\
      ~ raised is_under (discrepancy_flags r) /\
      ~ raised is_over (discrepancy_flags r)).
Proof.
  split; [exact stored_hyphenated|].
  intros s analyses r Hall Hq Hrun.
  destruct (realtime_totals s r Hrun) as (Hmin & Hmax).
  rewrite Hq in Hmin, Hmax.
  destruct (stored_hyphenated_sum analyses Hall) as (Zmin & Zmax).
  rewrite Zmin in Hmin. rewrite Zmax in Hmax.
  split; [exact Hmin|]. split; [exact Hmax|].
  pose proof Hrun as Hinv. apply calculate_assessed in Hinv.
  destruct Hinv as (claim & fs & f3 & o3 & Hc & _).
  pose proof (flags_by_kind s claim r Hc Hrun) as Hk.
  cbv zeta in Hk. destruct Hk as (Hu & Ho & _).
  rewrite Hu, Ho, Hmin.
  split; intros (H & _); exact (Qlt_irrefl 0 H).
Qed.

Lemma hyphenated_detections_disable_amount_check_witness :
  let a :=
    {| success := true;
       damage_types := Some ["front-end-damage"%string];
       severity := Some "MAJOR"%string;
       cost_estimate := Some {| cost_min := Some 9000;
                                cost_max := Some 14000 |} |} in
  estimated_cost_min (stored_assessment a) = Some 0 /\
  estimated_cost_max (stored_assessment a) = Some 0.
Proof.
  cbv zeta.
  apply (proj1 hyphenated_detections_disable_amount_check).
  split; [reflexivity|].
  exists "front-end-damage"%string, [].
  split; [reflexivity|]. constructor; [simpl; tauto | constructor].
Defined.

End Pipeline.

(** ** More on the real-time evaluation *)

Section Outcome.

Import Models ClaimReview Samples DenialReason.



End Outcome.

Section FlagStructure.

Import Models ClaimReview Samples DenialReason.

Lemma amount_check_shape (c mn mx : Q) :
  fst (amount_check c mn mx) = [] \/
  (0 < mn /\ exists f, fst (amount_check c mn mx) = [f] /\
                       is_amount_flag f = true).
Proof.
  unfold amount_check.
  destruct (Py.gt mn 0) eqn:G; [apply gt_spec in G | left; reflexivity].
  destruct (Py.lt c (mn * 0.5)).
  - right. split; [exact G|]. eexists. split; reflexivity.
  - destruct (Py.gt c (mx * 1.5)); [|left; reflexivity].
    right. split; [exact G|]. eexists. split; reflexivity.
Qed.

Lemma coverage_check_shape (c : Q) (policy : option Policy)
      (flags : list Flag) (out : list Line) :
  coverage_check c policy = Py.Ok (flags, out) ->
  flags = [] \/ (exists f, flags = [f] /\ is_coverage f = true).
Proof.
  intro H. apply coverage_check_inv in H.
  destruct H as [(_ & -> & _) | (p & _ & _ & [(_ & -> & _)|(_ & -> & _)])];
    auto.
  right. eexists. split; reflexivity.
Qed.

Lemma sum_nil_not_positive {A : Type} (f : A -> Q) : ~ 0 < Py.sum f [].
Proof. unfold Py.sum. simpl. apply Qlt_irrefl. Qed.

Lemma flags_length_bound (s : Session) (a : Assessment) :
  calculate_fraud_realtime s = Py.Ok (Assessed a) ->
  (List.length (discrepancy_flags a) <= 2)%nat /\
  (List.length (discrepancy_flags a) = 2%nat ->
   raised is_coverage (discrepancy_flags a)).
Proof.
  intro Hrun. apply calculate_assessed in Hrun.
  destruct Hrun as (claim & fs & f3 & o3 & Hc & Hf & Hcov & Hrest).
  cbv zeta in Hrest.
  destruct Hrest as (_ & _ & _ & Hflags & _).
  rewrite Hflags, evidence_check_flags.
  destruct (coverage_check_shape _ _ _ _ Hcov) as [-> | (g & -> & Hg)];
    destruct (amount_check_shape (estimated_damage claim)
                (damage_min_of s) (damage_max_of s))
      as [-> | (Hpos & f & -> & Hf')];
    destruct (List.length (q_assessments s) =? 0)%nat eqn:E0;
    simpl; try (split; [lia | intro; try lia]);
    try (unfold raised; simpl; rewrite Hg, ?orb_true_r; reflexivity).
  - exfalso. apply Nat.eqb_eq, length_zero_iff_nil in E0.
    unfold damage_min_of in Hpos. rewrite E0 in Hpos.
    exact (sum_nil_not_positive _ Hpos).
  - exfalso. apply Nat.eqb_eq, length_zero_iff_nil in E0.
    unfold damage_min_of in Hpos. rewrite E0 in Hpos.
    exact (sum_nil_not_positive _ Hpos).
Qed.

(** X11.  An evaluation raises at most two flags: an amount flag (under-
    or over-claiming, never both) and the no-evidence flag exclude each
    other, so a second flag is always the coverage flag; the CRITICAL tier
    is therefore reached only by claims above 95% of their coverage
    limit. *)
Theorem flags_structure (s : Session) (a : Assessment) :
  calculate_fraud_realtime s = Py.Ok (Assessed a) ->
  let flags := discrepancy_flags a in
  (List.length flags <= 2)%nat /\
  ~ (raised is_under flags /\ raised is_over flags) /\
  ~ ((raised is_under flags \/ raised is_over flags) /\
     raised is_no_evidence flags) /\
  (List.length flags = 2%nat -> raised is_coverage flags) /\
  (risk a = CRITICAL -> raised is_coverage flags).
Proof.
  intros Hrun flags.
  pose proof Hrun as Hinv. apply calculate_assessed in Hinv.
  destruct Hinv as (claim & fs & f3 & o3 & Hc & Hf & Hcov & Hrest).
  cbv zeta in Hrest.
  destruct Hrest as (Hmin & _ & Hnum & Hflags & _ & _ & _ & Hrisk & _).
  pose proof (flags_by_kind s claim a Hc Hrun) as Hk.
  cbv zeta in Hk. destruct Hk as (Hu & Ho & Hne & _).
  fold flags in Hu, Ho, Hne.
  assert (Hexcl : ~ ((raised is_under flags \/ raised is_over flags) /\
                     raised is_no_evidence flags)).
  { rewrite Hu, Ho, Hne, Hnum, Hmin. intros (Hpos & H0).
    apply length_zero_iff_nil in H0.
    unfold damage_min_of in Hpos. rewrite H0 in Hpos.
    destruct Hpos as [(Hp & _) | (Hp & _)];
      exact (sum_nil_not_positive _ Hp). }
  pose proof (flags_length_bound s a Hrun) as Hlen. fold flags in Hlen.
  destruct Hlen as (Hle & H2).
  split; [exact Hle|]. split.
  - rewrite Hu, Ho. tauto.
  - split; [exact Hexcl|]. split; [exact H2|].
    intro Hcrit. apply H2.
    pose proof (smart_risk_cases (discrepancy_flags a) (fraud_score fs))
      as Hcases.
    cbv zeta in Hcases. rewrite <- Hrisk in Hcases. fold flags in Hcases.
    rewrite Hcrit in Hcases.
    destruct Hcases as [(Hn & _) | [(_ & H) | [(_ & _ & H) |
                       [(_ & _ & _ & H) | (_ & _ & H)]]]];
      try discriminate.
    lia.
Qed.

Lemma flags_structure_witness :
  let a := assessment_of_session over_claimed in
  let flags := discrepancy_flags a in
  (List.length flags <= 2)%nat /\
  ~ (raised is_under flags /\ raised is_over flags) /\
  ~ ((raised is_under flags \/ raised is_over flags) /\
     raised is_no_evidence flags) /\
  (List.length flags = 2%nat -> raised is_coverage flags) /\
  (risk a = CRITICAL -> raised is_coverage flags).
Proof.
  exact (flags_structure over_claimed
           (assessment_of_session over_claimed) eq_refl).
Defined.

End FlagStructure.

Section ScoreProperties.

Import Models ClaimReview Samples DenialReason.

Lemma smart_risk_final (flags : list Flag) (base : Q) :
  fst (smart_risk flags base)
  = match flags with
    | [] => base
    | _ :: _ => Py.min (base + 0.15) 1.0
    end.
Proof. destruct flags; reflexivity. Qed.

Lemma min_cases (x : Q) :
  (1 < x /\ Py.min x 1.0 = 1.0) \/ (x <= 1 /\ Py.min x 1.0 = x).
Proof.
  unfold Py.min. destruct (Py.lt 1.0 x) eqn:E.
  - apply lt_spec in E. left. split; [lra | reflexivity].
  - apply lt_false in E. right. split; [lra | reflexivity].
Qed.

(** X12.  For a stored score between 0 and 1 the final score stays
    between 0 and 1, is never below the stored score and exceeds it by at
    most 0.15. *)
Theorem final_score_bounds (s : Session) (fs : FraudScore) (a : Assessment) :
  q_fraud_score s = Some fs ->
  calculate_fraud_realtime s = Py.Ok (Assessed a) ->
  0 <= fraud_score fs -> fraud_score fs <= 1 ->
  0 <= final_score a /\ final_score a <= 1 /\
  fraud_score fs <= final_score a /\
  final_score a <= fraud_score fs + 0.15.
Proof.
  intros Hf Hrun H0 H1.
  apply calculate_assessed in Hrun.
  destruct Hrun as (claim & fs' & f3 & o3 & _ & Hf' & _ & Hrest).
  cbv zeta in Hrest.
  destruct Hrest as (_ & _ & _ & _ & _ & _ & Hfinal & _).
  rewrite Hf in Hf'. injection Hf' as <-.
  rewrite Hfinal, smart_risk_final.
  destruct (discrepancy_flags a) as [|f l].
  - repeat split; lra.
  - destruct (min_cases (fraud_score fs + 0.15)) as [(Hx & ->) | (Hx & ->)];
      repeat split; lra.
Qed.

Lemma final_score_bounds_witness :
  let a := assessment_of_session over_claimed in
  0 <= final_score a /\ final_score a <= 1 /\
  0.6 * 0.5 + 0.4 * 0.3 <= final_score a /\
  final_score a <= 0.6 * 0.5 + 0.4 * 0.3 + 0.15.
Proof.
  apply (final_score_bounds over_claimed
           (Ingest.generate_fraud_score_from_row Samples.row (draws 0.5 0.3))
           (assessment_of_session over_claimed) eq_refl eq_refl);
    vm_compute; discriminate.
Defined.

Lemma ge_cases (x c : Q) :
  (Py.ge x c = true /\ c <= x) \/ (Py.ge x c = false /\ x < c).
Proof.
  destruct (Py.ge x c) eqn:E.
  - left. split; [reflexivity | apply ge_spec, E].
  - right. split; [reflexivity | apply ge_false, E].
Qed.

Lemma smart_risk_monotone (flags : list Flag) (b b' : Q) :
  b <= b' ->
  fst (smart_risk flags b) <= fst (smart_risk flags b') /\
  (risk_rank (snd (smart_risk flags b))
   <= risk_rank (snd (smart_risk flags b')))%nat.
Proof.
  intro Hle. destruct flags as [|f l]; unfold smart_risk; cbn [fst snd].
  - split; [exact Hle|].
    destruct (ge_cases b 0.7) as [(E7 & H7) | (E7 & H7)];
      destruct (ge_cases b' 0.7) as [(E7' & H7') | (E7' & H7')];
      destruct (ge_cases b 0.3) as [(E3 & H3) | (E3 & H3)];
      destruct (ge_cases b' 0.3) as [(E3' & H3') | (E3' & H3')];
      rewrite ?E7, ?E7', ?E3, ?E3'; simpl;
      first [lia | exfalso; lra].
  - split; [|destruct (2 <=? _)%nat; simpl; lia].
    destruct (min_cases (b + 0.15)) as [(Hx & ->) | (Hx & ->)];
      destruct (min_cases (b' + 0.15)) as [(Hx' & ->) | (Hx' & ->)]; lra.
Qed.

Lemma recommend_monotone (flags : list Flag) (f f' : Q) :
  f <= f' ->
  (recommendation_rank (recommend flags f)
   <= recommendation_rank (recommend flags f'))%nat.
Proof.
  intro Hle. unfold recommend.
  destruct (2 <=? List.length flags)%nat; [simpl; lia|].
  destruct (1 <=? List.length flags)%nat;
    destruct (ge_cases f 0.8) as [(E8 & H8) | (E8 & H8)];
    destruct (ge_cases f' 0.8) as [(E8' & H8') | (E8' & H8')];
    destruct (ge_cases f 0.5) as [(E5 & H5) | (E5 & H5)];
    destruct (ge_cases f' 0.5) as [(E5' & H5') | (E5' & H5')];
    rewrite ?E8, ?E8', ?E5, ?E5'; simpl;
    first [lia | exfalso; lra].
Qed.

Lemma flags_independent_of_score
      (s : Session) (fs' : FraudScore) (a a' : Assessment) :
  calculate_fraud_realtime s = Py.Ok (Assessed a) ->
  calculate_fraud_realtime (with_fraud_score s fs') = Py.Ok (Assessed a') ->
  discrepancy_flags a' = discrepancy_flags a.
Proof.
  intros Hrun Hrun'.
  apply calculate_assessed in Hrun, Hrun'.
  destruct Hrun as (claim & fs & f3 & o3 & Hc & _ & Hcov & Hrest).
  destruct Hrun' as (claim' & fs'' & f3' & o3' & Hc' & _ & Hcov' & Hrest').
  cbv zeta in Hrest, Hrest'.
  destruct Hrest as (_ & _ & _ & Hflags & _).
  destruct Hrest' as (_ & _ & _ & Hflags' & _).
  simpl in Hc', Hcov'. rewrite Hc in Hc'. injection Hc' as <-.
  rewrite Hcov in Hcov'. injection Hcov' as <- <-.
  rewrite Hflags, Hflags'. reflexivity.
Qed.

(** X13.  With the claim, its images and its policy fixed, a higher
    stored score never lowers the final score, the risk tier or the
    recommendation. *)
Theorem evaluation_monotone_in_score
        (s : Session) (fs fs' : FraudScore) (a a' : Assessment) :
  q_fraud_score s = Some fs ->
  calculate_fraud_realtime s = Py.Ok (Assessed a) ->
  calculate_fraud_realtime (with_fraud_score s fs') = Py.Ok (Assessed a') ->
  fraud_score fs <= fraud_score fs' ->
  final_score a <= final_score a' /\
  (risk_rank (risk a) <= risk_rank (risk a'))%nat /\
  (recommendation_rank (recommendation a)
   <= recommendation_rank (recommendation a'))%nat.
Proof.
  intros Hf Hrun Hrun' Hle.
  pose proof (flags_independent_of_score s fs' a a' Hrun Hrun') as Hsame.
  apply calculate_assessed in Hrun, Hrun'.
  destruct Hrun as (claim & fs0 & f3 & o3 & _ & Hf0 & _ & Hrest).
  destruct Hrun' as (claim' & fs1 & f3' & o3' & _ & Hf1 & _ & Hrest').
  cbv zeta in Hrest, Hrest'.
  destruct Hrest as (_ & _ & _ & _ & _ & _ & Hfinal & Hrisk & Hrec).
  destruct Hrest' as (_ & _ & _ & _ & _ & _ & Hfinal' & Hrisk' & Hrec').
  rewrite Hf in Hf0. injection Hf0 as <-.
  simpl in Hf1. injection Hf1 as <-.
  rewrite Hsame in Hfinal', Hrisk', Hrec'.
  destruct (smart_risk_monotone (discrepancy_flags a) _ _ Hle) as (Hm & Hr).
  rewrite <- Hfinal, <- Hfinal' in Hm. rewrite <- Hrisk, <- Hrisk' in Hr.
  split; [exact Hm|]. split; [exact Hr|].
  rewrite Hrec, Hrec'. apply recommend_monotone. exact Hm.
Qed.

Lemma evaluation_monotone_in_score_witness :
  let a := assessment_of_session (plain 0.2 0.2) in
  let a' := assessment_of_session (plain 0.9 0.9) in
  final_score a <= final_score a' /\
  (risk_rank (risk a) <= risk_rank (risk a'))%nat /\
  (recommendation_rank (recommendation a)
   <= recommendation_rank (recommendation a'))%nat.
Proof.
  apply (evaluation_monotone_in_score (plain 0.2 0.2)
           (Ingest.generate_fraud_score_from_row Samples.row (draws 0.2 0.2))
           (Ingest.generate_fraud_score_from_row Samples.row (draws 0.9 0.9))
           (assessment_of_session (plain 0.2 0.2))
           (assessment_of_session (plain 0.9 0.9))
           eq_refl eq_refl eq_refl).
  vm_compute. discriminate.
Defined.

End ScoreProperties.

Section Coherence.

Import Models ClaimReview Samples DenialReason.

Lemma tier_and_recommendation (flags : list Flag) (base : Q) :
  let final := fst (smart_risk flags base) in
  let level := snd (smart_risk flags base) in
  let advice := recommend flags final in
  (level = CRITICAL -> advice = DENY_CLAIM) /\
  (level = LOW -> advice = APPROVE_CLAIM) /\
  (level = MEDIUM -> advice <> DENY_CLAIM) /\
  (advice = APPROVE_CLAIM ->
   flags = [] /\ final < 0.5 /\ (level = LOW \/ level = MEDIUM)) /\
  (advice = DENY_CLAIM -> level = CRITICAL \/ level = HIGH) /\
  (advice = DENY_CLAIM -> flags = [] -> level = HIGH /\ 0.8 <= final).
Proof.
  cbv zeta. unfold recommend.
  destruct flags as [|f [|g l]]; unfold smart_risk; cbn [fst snd List.length].
  - change (2 <=? 0)%nat with false. change (1 <=? 0)%nat with false.
    cbn [orb].
    destruct (ge_cases base 0.7) as [(E7 & H7) | (E7 & H7)];
      destruct (ge_cases base 0.3) as [(E3 & H3) | (E3 & H3)];
      destruct (ge_cases base 0.8) as [(E8 & H8) | (E8 & H8)];
      destruct (ge_cases base 0.5) as [(E5 & H5) | (E5 & H5)];
      rewrite ?E7, ?E3, ?E8, ?E5;
      try (exfalso; lra);
      repeat split; intros; try discriminate; try reflexivity;
      auto; try lra.
  - change (2 <=? 1)%nat with false. change (1 <=? 1)%nat with true.
    cbn [orb].
    destruct (Py.ge (Py.min (base + 0.15) 1.0) 0.8);
      repeat split; intros; try discriminate; auto.
  - change (2 <=? S (S (List.length l)))%nat with true. cbn [orb].
    repeat split; intros; try discriminate; auto.
Qed.

(** X14.  Tier and recommendation of one evaluation agree: a CRITICAL
    claim is always denied and a LOW one always approved; a MEDIUM claim is
    never denied; an approved claim has no flag, a final score below 0.5
    and a LOW or MEDIUM tier; a denied claim is HIGH or CRITICAL, and HIGH
    with a final score of at least 0.8 when it has no flag. *)
Theorem tier_agrees_with_recommendation (s : Session) (a : Assessment) :
  calculate_fraud_realtime s = Py.Ok (Assessed a) ->
  (risk a = CRITICAL -> recommendation a = DENY_CLAIM) /\
  (risk a = LOW -> recommendation a = APPROVE_CLAIM) /\
  (risk a = MEDIUM -> recommendation a <> DENY_CLAIM) /\
  (recommendation a = APPROVE_CLAIM ->
   discrepancy_flags a = [] /\ final_score a < 0.5 /\
   (risk a = LOW \/ risk a = MEDIUM)) /\
  (recommendation a = DENY_CLAIM -> risk a = CRITICAL \/ risk a = HIGH) /\
  (recommendation a = DENY_CLAIM -> discrepancy_flags a = [] ->
   risk a = HIGH /\ 0.8 <= final_score a).
Proof.
  intro Hrun. apply calculate_assessed in Hrun.
  destruct Hrun as (claim & fs & f3 & o3 & _ & _ & _ & Hrest).
  cbv zeta in Hrest.
  destruct Hrest as (_ & _ & _ & _ & _ & _ & Hfinal & Hrisk & Hrec).
  pose proof (tier_and_recommendation (discrepancy_flags a) (fraud_score fs))
    as H.
  cbv zeta in H. rewrite <- Hfinal, <- Hrisk, <- Hrec in H. exact H.
Qed.

Lemma tier_agrees_with_recommendation_witness :
  let a := assessment_of_session (plain 0.2 0.2) in
  discrepancy_flags a = [] /\ final_score a < 0.5 /\
  (risk a = LOW \/ risk a = MEDIUM).
Proof.
  exact (proj1 (proj2 (proj2 (proj2
           (tier_agrees_with_recommendation (plain 0.2 0.2)
              (assessment_of_session (plain 0.2 0.2)) eq_refl))))
           eq_refl).
Defined.

(** X15.  A claim without any stored image is never approved: the
    no-evidence flag is raised and no amount flag, the final score is
    [min(base + 0.15, 1.0)], the tier is HIGH or CRITICAL and the
    recommendation is manual review or denial. *)
Theorem no_image_never_approved
        (s : Session) (fs : FraudScore) (a : Assessment) :
  q_fraud_score s = Some fs ->
  q_assessments s = [] ->
  calculate_fraud_realtime s = Py.Ok (Assessed a) ->
  raised is_no_evidence (discrepancy_flags a) /\
  ~ raised is_under (discrepancy_flags a) /\
  ~ raised is_over (discrepancy_flags a) /\
  final_score a = Py.min (fraud_score fs + 0.15) 1.0 /\
  (risk a = HIGH \/ risk a = CRITICAL) /\
  recommendation a <> APPROVE_CLAIM.
Proof.
  intros Hf Hnil Hrun.
  pose proof Hrun as Hinv. apply calculate_assessed in Hinv.
  destruct Hinv as (claim & fs' & f3 & o3 & Hc & Hf' & _ & Hrest).
  cbv zeta in Hrest.
  destruct Hrest as (Hmin & _ & Hnum & _ & _ & _ & Hfinal & Hrisk & Hrec).
  rewrite Hf in Hf'. injection Hf' as <-.
  pose proof (flags_by_kind s claim a Hc Hrun) as Hk.
  cbv zeta in Hk. destruct Hk as (Hu & Ho & Hne & _).
  assert (Hraised : raised is_no_evidence (discrepancy_flags a)).
  { apply Hne. rewrite Hnum, Hnil. reflexivity. }
  assert (Hpos : ~ 0 < actual_damage_min a).
  { rewrite Hmin. unfold damage_min_of. rewrite Hnil.
    apply sum_nil_not_positive. }
  pose proof (tier_and_recommendation (discrepancy_flags a) (fraud_score fs))
    as Hagree.
  cbv zeta in Hagree. rewrite <- Hfinal, <- Hrisk, <- Hrec in Hagree.
  destruct Hagree as (_ & _ & _ & Happrove & _).
  destruct (discrepancy_flags a) as [|f l] eqn:Ef.
  { exfalso. exact (raised_nil _ Hraised). }
  split; [exact Hraised|].
  split; [rewrite Hu; tauto|]. split; [rewrite Ho; tauto|].
  split; [rewrite Hfinal; reflexivity|].
  split.
  - rewrite Hrisk. unfold smart_risk. cbn [snd].
    destruct (2 <=? List.length (f :: l))%nat; auto.
  - intro Happ. destruct (Happrove Happ) as (Hnilflags & _). discriminate.
Qed.

Lemma no_image_never_approved_witness :
  let s := session 2000 0.1 0.1 [] None in
  let a := assessment_of_session s in
  recommendation a <> APPROVE_CLAIM.
Proof.
  cbv zeta.
  exact (proj2 (proj2 (proj2 (proj2 (proj2
           (no_image_never_approved (session 2000 0.1 0.1 [] None)
              (Ingest.generate_fraud_score_from_row Samples.row
                 (draws 0.1 0.1))
              (assessment_of_session (session 2000 0.1 0.1 [] None))
              eq_refl eq_refl eq_refl)))))).
Defined.

End Coherence.

Section Denial.

Import Models ClaimReview Samples DenialReason.

(** X16.  The pre-filled denial reason is produced exactly when a flag
    was raised or the final score is at least 0.7.  Every denial
    recommendation comes with one and no approval does; it lists the first
    five issues at most, the flags of this evaluation before the stored
    ones. *)
Theorem auto_denial_reason_rule (s : Session) (a : Assessment) :
  calculate_fraud_realtime s = Py.Ok (Assessed a) ->
  (auto_denial_reason a <> None
   <-> discrepancy_flags a <> [] \/ 0.7 <= final_score a) /\
  (recommendation a = DENY_CLAIM -> auto_denial_reason a <> None) /\
  (recommendation a = APPROVE_CLAIM -> auto_denial_reason a = None) /\
  (forall issues,
      auto_denial_reason a = Some issues ->
      (List.length issues <= 5)%nat /\
      issues = firstn 5 (all_flags a) /\
      firstn (List.length (discrepancy_flags a)) issues
      = map Detected (discrepancy_flags a)).
Proof.
  intro Hrun.
  pose proof (flags_length_bound s a Hrun) as (Hlen & _).
  apply calculate_assessed in Hrun.
  destruct Hrun as (claim & fs & f3 & o3 & _ & _ & _ & Hrest).
  cbv zeta in Hrest.
  destruct Hrest as (_ & _ & _ & _ & _ & Hall & Hfinal & Hrisk & Hrec).
  assert (Hiff : auto_denial_reason a <> None
                 <-> discrepancy_flags a <> [] \/ 0.7 <= final_score a).
  { unfold auto_denial_reason.
    destruct (discrepancy_flags a) as [|f l]; cbn [List.length].
    - change (1 <=? 0)%nat with false. cbn [orb].
      destruct (ge_cases (final_score a) 0.7) as [(E & H) | (E & H)];
        rewrite E.
      + split; [auto | discriminate].
      + split; [congruence|]. intros [Hn | Hge]; [congruence|].
        exfalso. lra.
    - change (1 <=? S (List.length l))%nat with true. cbn [orb].
      split; [intros _; left; discriminate | discriminate]. }
  pose proof (tier_and_recommendation (discrepancy_flags a) (fraud_score fs))
    as Hagree.
  cbv zeta in Hagree. rewrite <- Hfinal, <- Hrisk, <- Hrec in Hagree.
  destruct Hagree as (_ & _ & _ & Happrove & Hdeny & Hdeny0).
  split; [exact Hiff|]. split; [|split].
  - intro Hd. apply Hiff.
    destruct (discrepancy_flags a) as [|f l] eqn:Ef;
      [|left; discriminate].
    right. destruct (Hdeny0 Hd eq_refl) as (_ & H8). lra.
  - intro Ha. destruct (Happrove Ha) as (Hnil & Hlt & _).
    unfold auto_denial_reason. rewrite Hnil. cbn [List.length].
    change (1 <=? 0)%nat with false. cbn [orb].
    destruct (ge_cases (final_score a) 0.7) as [(E & H) | (E & H)];
      rewrite E; [exfalso; lra | reflexivity].
  - intros issues Hi.
    assert (Hi' : issues = firstn 5 (all_flags a)).
    { unfold auto_denial_reason in Hi.
      destruct ((1 <=? List.length (discrepancy_flags a))%nat
                || Py.ge (final_score a) 0.7); [|discriminate].
      injection Hi as <-. reflexivity. }
    clear Hi. subst issues.
    split; [apply firstn_le_length|]. split; [reflexivity|].
    rewrite Hall.
    rewrite firstn_firstn.
    rewrite Nat.min_l by lia.
    rewrite firstn_app, length_map, Nat.sub_diag. simpl.
    rewrite app_nil_r.
    rewrite <- (length_map Detected) at 1. apply firstn_all.
Qed.

End Denial.

Section Unanalysed.

Import Models ClaimReview Samples DenialReason Reference.

Lemma auto_denial_reason_rule_witness :
  let a := assessment_of_session over_claimed in
  auto_denial_reason a <> None
  <-> discrepancy_flags a <> [] \/ 0.7 <= final_score a.
Proof.
  exact (proj1 (auto_denial_reason_rule over_claimed
                  (assessment_of_session over_claimed) eq_refl)).
Defined.

Lemma unanalysed_sum (l : list DamageAssessment) :
  Forall unanalysed l ->
  elementwise_sum min_of l == 0 /\ elementwise_sum max_of l == 0.
Proof.
  induction 1 as [|x l (Hmin & Hmax) _ (IHmin & IHmax)];
    [split; reflexivity|].
  simpl. unfold min_of at 1, max_of at 1.
  rewrite Hmin, Hmax, IHmin, IHmax. split; reflexivity.
Qed.

(** X17.  For a claim whose stored images were never analysed (null cost
    columns), the real-time evaluation counts the images, so it raises no
    no-evidence flag, reads their damage as 0 and raises no amount flag;
    the summary of the same rows raises a [TypeError] instead. *)
Theorem unanalysed_images
        (s : Session) (x : DamageAssessment) (rest : list DamageAssessment)
        (a : Assessment) :
  q_assessments s = x :: rest ->
  Forall unanalysed (x :: rest) ->
  calculate_fraud_realtime s = Py.Ok (Assessed a) ->
  actual_damage_min a == 0 /\
  actual_damage_max a == 0 /\
  ~ raised is_under (discrepancy_flags a) /\
  ~ raised is_over (discrepancy_flags a) /\
  ~ raised is_no_evidence (discrepancy_flags a) /\
  DamageAssessmentService.get_assessment_summary (q_assessments s)
  = Py.Raise Py.TypeError.
Proof.
  intros Hq Hall Hrun.
  destruct (realtime_totals s a Hrun) as (Hmin & Hmax).
  rewrite Hq in Hmin, Hmax.
  destruct (unanalysed_sum _ Hall) as (Zmin & Zmax).
  rewrite Zmin in Hmin. rewrite Zmax in Hmax.
  pose proof Hrun as Hinv. apply calculate_assessed in Hinv.
  destruct Hinv as (claim & fs & f3 & o3 & Hc & _ & _ & Hrest).
  cbv zeta in Hrest. destruct Hrest as (_ & _ & Hnum & _).
  pose proof (flags_by_kind s claim a Hc Hrun) as Hk.
  cbv zeta in Hk. destruct Hk as (Hu & Ho & Hne & _).
  split; [exact Hmin|]. split; [exact Hmax|].
  split; [rewrite Hu, Hmin; intros (H & _); exact (Qlt_irrefl 0 H)|].
  split; [rewrite Ho, Hmin; intros (H & _); exact (Qlt_irrefl 0 H)|].
  split.
  - rewrite Hne, Hnum, Hq. discriminate.
  - rewrite Hq. unfold DamageAssessmentService.get_assessment_summary.
    rewrite sum_strict_none; [reflexivity|].
    inversion Hall as [|? ? (Hx & _) _]; subst.
    simpl. left. exact Hx.
Qed.

Lemma unanalysed_images_witness :
  let row := {| damage_type := None; severity := None;
                estimated_cost_min := None; estimated_cost_max := None |} in
  let s := session 2000 0.2 0.2 [row] None in
  DamageAssessmentService.get_assessment_summary (q_assessments s)
  = Py.Raise Py.TypeError.
Proof.
  cbv zeta.
  refine (proj2 (proj2 (proj2 (proj2 (proj2
            (unanalysed_images
               (session 2000 0.2 0.2
                  [{| damage_type := None; severity := None;
                      estimated_cost_min := None;
                      estimated_cost_max := None |}] None)
               _ [] (assessment_of_session
                       (session 2000 0.2 0.2
                          [{| damage_type := None; severity := None;
                              estimated_cost_min := None;
                              estimated_cost_max := None |}] None))
               eq_refl _ eq_refl)))))).
  constructor; [split; reflexivity | constructor].
Defined.

End Unanalysed.

(** ** Ingested scores *)

Section Ingestion.

Import Models ClaimReview Samples DenialReason Draws ModelProperties.

Lemma composite_range (row : Ingest.Row) (d : Ingest.Draws) :
  drawn_for row d ->
  let c := fraud_score (Ingest.generate_fraud_score_from_row row d) in
  (Ingest.FraudFound_P row = 1%Z -> 0.56 <= c /\ c <= 0.93) /\
  (Ingest.FraudFound_P row <> 1%Z -> 0.05 <= c /\ c <= 0.43).
Proof.
  unfold drawn_for, uniform. intros (Hr & _). simpl.
  destruct (Ingest.FraudFound_P row =? 1)%Z eqn:E.
  - apply Z.eqb_eq in E. destruct Hr as ((? & ?) & (? & ?)).
    split; [intros _; split; lra | intro; contradiction].
  - apply Z.eqb_neq in E. destruct Hr as ((? & ?) & (? & ?)).
    split; [intro; contradiction | intros _; split; lra].
Qed.

(** X18.  Whatever the random draws, a row marked as fraud is stored with
    a composite score between 0.56 and 0.93, requires investigation and is
    never rated low; any other row is stored with a score between 0.05 and
    0.43, requires no investigation and is rated low or medium. *)
Theorem ingested_score_ranges (row : Ingest.Row) (d : Ingest.Draws) :
  drawn_for row d ->
  let fs := Ingest.generate_fraud_score_from_row row d in
  (Ingest.FraudFound_P row = 1%Z ->
   0.56 <= fraud_score fs /\ fraud_score fs <= 0.93 /\
   requires_investigation fs = true /\
   risk_level fs <> "low"%string) /\
  (Ingest.FraudFound_P row <> 1%Z ->
   0.05 <= fraud_score fs /\ fraud_score fs <= 0.43 /\
   requires_investigation fs = false /\
   (risk_level fs = "low"%string \/ risk_level fs = "medium"%string)).
Proof.
  intros Hd fs.
  destruct (composite_range row d Hd) as (Hfraud & Hclean).
  cbv zeta in Hfraud, Hclean. fold fs in Hfraud, Hclean.
  change (requires_investigation fs) with (Py.ge (fraud_score fs) 0.5).
  change (risk_level fs) with (Ingest.risk_level_of (fraud_score fs)).
  destruct (risk_level_of_cases (fraud_score fs))
    as [(H8 & ->) | [(H6 & H8 & ->) | [(H3 & H6 & ->) | (H3 & ->)]]];
    (split; intro Hrow;
     [destruct (Hfraud Hrow) as (Hlo & Hhi)
     |destruct (Hclean Hrow) as (Hlo & Hhi)]);
    try (exfalso; lra);
    (split; [exact Hlo|]); (split; [exact Hhi|]);
    (split; [first [apply ge_spec; lra | apply ge_false; lra]|]);
    first [discriminate | auto].
Qed.

Lemma ingested_score_ranges_witness :
  let fs := Ingest.generate_fraud_score_from_row Samples.row (draws 0.2 0.3) in
  0.05 <= fraud_score fs /\ fraud_score fs <= 0.43 /\
  requires_investigation fs = false /\
  (risk_level fs = "low"%string \/ risk_level fs = "medium"%string).
Proof.
  refine (proj2 (ingested_score_ranges Samples.row (draws 0.2 0.3) _) _).
  - unfold drawn_for, uniform. simpl.
    repeat split; vm_compute; discriminate.
  - discriminate.
Defined.

(** X19.  In the real-time evaluation of an ingested claim, a row marked
    as fraud is never approved; any other row is approved whenever no flag
    is raised, and is denied only when two flags are raised. *)
Theorem ingested_claim_decision
        (row : Ingest.Row) (d : Ingest.Draws) (s : Session) (a : Assessment) :
  drawn_for row d ->
  q_fraud_score s = Some (Ingest.generate_fraud_score_from_row row d) ->
  calculate_fraud_realtime s = Py.Ok (Assessed a) ->
  (Ingest.FraudFound_P row = 1%Z -> recommendation a <> APPROVE_CLAIM) /\
  (Ingest.FraudFound_P row <> 1%Z -> discrepancy_flags a = [] ->
   recommendation a = APPROVE_CLAIM) /\
  (Ingest.FraudFound_P row <> 1%Z -> recommendation a = DENY_CLAIM ->
   List.length (discrepancy_flags a) = 2%nat).
Proof.
  intros Hd Hf Hrun.
  destruct (composite_range row d Hd) as (Hfraud & Hclean).
  cbv zeta in Hfraud, Hclean.
  pose proof (flags_length_bound s a Hrun) as (Hlen & _).
  apply calculate_assessed in Hrun.
  destruct Hrun as (claim & fs & f3 & o3 & _ & Hf' & _ & Hrest).
  cbv zeta in Hrest.
  destruct Hrest as (_ & _ & _ & _ & _ & _ & Hfinal & _ & Hrec).
  rewrite Hf in Hf'. injection Hf' as <-.
  set (c := fraud_score (Ingest.generate_fraud_score_from_row row d)) in *.
  rewrite smart_risk_final in Hfinal.
  rewrite Hrec. unfold recommend.
  destruct (discrepancy_flags a) as [|f [|g l]]; cbn [List.length] in *.
  - change (2 <=? 0)%nat with false. change (1 <=? 0)%nat with false.
    cbn [orb]. rewrite Hfinal.
    destruct (ge_cases c 0.8) as [(E8 & H8) | (E8 & H8)];
      destruct (ge_cases c 0.5) as [(E5 & H5) | (E5 & H5)];
      rewrite E8, ?E5;
      (split; [intro Hrow; destruct (Hfraud Hrow); first [discriminate | exfalso; lra]|]);
      (split; intros Hrow; destruct (Hclean Hrow); intros;
       first [reflexivity | discriminate | exfalso; lra]).
  - change (2 <=? 1)%nat with false. change (1 <=? 1)%nat with true.
    cbn [orb].
    destruct (ge_cases (final_score a) 0.8) as [(E8 & H8) | (E8 & H8)];
      rewrite E8;
      (split; [discriminate|]); (split; [discriminate|]);
      intros Hrow Hdeny; try discriminate.
    exfalso. destruct (Hclean Hrow) as (Hlo & Hhi).
    rewrite Hfinal in H8.
    destruct (min_cases (c + 0.15)) as [(Hx & E) | (Hx & E)];
      rewrite E in H8; lra.
  - assert (l = []) by (destruct l; [reflexivity | simpl in Hlen; lia]).
    subst l. simpl.
    split; [discriminate|]. split; [discriminate | reflexivity].
Qed.

Lemma ingested_claim_decision_witness :
  recommendation (assessment_of_session (plain 0.2 0.3)) = APPROVE_CLAIM.
Proof.
  refine (proj1 (proj2 (ingested_claim_decision Samples.row (draws 0.2 0.3)
                          (plain 0.2 0.3)
                          (assessment_of_session (plain 0.2 0.3))
                          _ eq_refl eq_refl)) _ eq_refl).
  - unfold drawn_for, uniform. simpl.
    repeat split; vm_compute; discriminate.
  - discriminate.
Defined.

End Ingestion.

(** ** Properties of the stored models *)

Section StoredModels.

Import Models ModelProperties.

(** X20.  On every fraud score [is_suspicious] holds exactly when the
    recommended action is an immediate investigation or a detailed review;
    for a score stored at ingestion it equals [requires_investigation], the
    tier is critical exactly when an immediate investigation is
    recommended and low exactly for normal processing.  The claim-side
    [is_suspicious] is the stricter test: the two differ exactly at a score
    of 0.5. *)
Theorem suspicion_and_action :
  (forall fs : FraudScore,
      (is_suspicious fs = true <->
       recommended_action fs = "immediate_investigation"%string \/
       recommended_action fs = "detailed_review"%string) /\
      (claim_is_suspicious (Some (fraud_score fs)) = true ->
       is_suspicious fs = true) /\
      (is_suspicious fs = true /\
       claim_is_suspicious (Some (fraud_score fs)) = false
       <-> fraud_score fs == 0.5)) /\
  (forall (row : Ingest.Row) (d : Ingest.Draws),
      let fs := Ingest.generate_fraud_score_from_row row d in
      requires_investigation fs = is_suspicious fs /\
      (risk_level fs = "critical"%string <->
       recommended_action fs = "immediate_investigation"%string) /\
      (risk_level fs = "low"%string <->
       recommended_action fs = "normal_processing"%string)).
Proof.
  split.
  - intro fs. unfold is_suspicious, recommended_action, claim_is_suspicious.
    generalize (fraud_score fs). intro c.
    destruct (ge_cases c 0.8) as [(E8 & H8) | (E8 & H8)];
      destruct (ge_cases c 0.5) as [(E5 & H5) | (E5 & H5)];
      destruct (ge_cases c 0.3) as [(E3 & H3) | (E3 & H3)];
      rewrite E8, ?E5, ?E3; try (exfalso; lra);
      (destruct (Py.gt c 0.5) eqn:G;
       [apply gt_spec in G | apply gt_false in G]);
      try (exfalso; lra);
      repeat split; intros;
      repeat match goal with
             | H : _ /\ _ |- _ => destruct H
             | H : _ \/ _ |- _ => destruct H
             end;
      try discriminate; try reflexivity; auto; try lra;
      try (apply Qle_antisym; lra).
  - intros row d fs.
    change (requires_investigation fs) with (Py.ge (fraud_score fs) 0.5).
    change (risk_level fs) with (Ingest.risk_level_of (fraud_score fs)).
    unfold is_suspicious, recommended_action, Ingest.risk_level_of.
    generalize (fraud_score fs). intro c.
    split; [reflexivity|].
    destruct (ge_cases c 0.8) as [(E8 & H8) | (E8 & H8)];
      destruct (ge_cases c 0.6) as [(E6 & H6) | (E6 & H6)];
      destruct (ge_cases c 0.5) as [(E5 & H5) | (E5 & H5)];
      destruct (ge_cases c 0.3) as [(E3 & H3) | (E3 & H3)];
      rewrite E8, ?E6, ?E5, ?E3; try (exfalso; lra);
      repeat split; intros; try discriminate; reflexivity.
Qed.

(** X21.  The average cost of a stored assessment is the midpoint of its
    bounds, and lies between them, when both are stored and not zero; it
    is 0 as soon as one bound is missing or zero, also for a range such as
    0 to 100. *)
Theorem cost_average (a : DamageAssessment) :
  (forall mn mx,
      estimated_cost_min a = Some mn -> estimated_cost_max a = Some mx ->
      ~ mn == 0 -> ~ mx == 0 ->
      estimated_cost_average a == (mn + mx) / 2 /\
      (mn <= mx ->
       mn <= estimated_cost_average a /\ estimated_cost_average a <= mx)) /\
  (truthy (estimated_cost_min a) = false \/
   truthy (estimated_cost_max a) = false ->
   estimated_cost_average a == 0).
Proof.
  unfold estimated_cost_average. split.
  - intros mn mx -> -> Hmn Hmx. unfold truthy.
    destruct (Qeq_bool mn 0) eqn:E1;
      [apply Qeq_bool_iff in E1; contradiction|].
    destruct (Qeq_bool mx 0) eqn:E2;
      [apply Qeq_bool_iff in E2; contradiction|].
    simpl. split; [reflexivity|]. intro Hle.
    assert (Hhalf : (mn + mx) / 2 == (mn + mx) * (1 # 2))
      by (unfold Qdiv; reflexivity).
    rewrite Hhalf. split; lra.
  - destruct (estimated_cost_min a) as [mn|];
      destruct (estimated_cost_max a) as [mx|];
      try (intros _; reflexivity).
    intros [H|H]; rewrite H; try reflexivity.
    rewrite andb_false_r. reflexivity.
Qed.

Lemma cost_average_witness :
  let a := Samples.assessed 1500 3500 in
  estimated_cost_average a == (1500 + 3500) / 2 /\
  (1500 <= 3500 ->
   1500 <= estimated_cost_average a /\ estimated_cost_average a <= 3500).
Proof.
  apply (proj1 (cost_average (Samples.assessed 1500 3500)) 1500 3500
               eq_refl eq_refl); vm_compute; discriminate.
Defined.

End StoredModels.

(** ** The assessment summary *)

Section Summary.

Import Models DamageAssessmentService Samples.

Lemma max_by_severity_max (first : DamageAssessment)
      (rest : list DamageAssessment) :
  let best := max_by_severity first rest in
  forall y, In y (first :: rest) ->
            (severity_order (severity y)
             <= severity_order (severity best))%nat.
Proof.
  unfold max_by_severity. revert first.
  induction rest as [|b rest IH]; intros first y Hy.
  - simpl. destruct Hy as [<-|[]]. lia.
  - simpl fold_left.
    destruct (severity_order (severity first)
              <? severity_order (severity b))%nat eqn:E.
    + apply Nat.ltb_lt in E.
      pose proof (IH b b (or_introl eq_refl)) as Hb.
      destruct Hy as [<-|[<-|Hy]].
      * lia.
      * exact Hb.
      * apply IH. right. exact Hy.
    + apply Nat.ltb_ge in E.
      pose proof (IH first first (or_introl eq_refl)) as Hf.
      destruct Hy as [<-|[<-|Hy]].
      * exact Hf.
      * lia.
      * apply IH. right. exact Hy.
Qed.

Lemma values_inv (l : list (option DamageType)) (ts : list DamageType) :
  values l = Py.Ok ts -> l = map Some ts.
Proof.
  revert ts. induction l as [|o l IH]; intros ts H.
  - injection H as <-. reflexivity.
  - destruct o as [t|]; [|discriminate]. simpl in H.
    destruct (values l) as [ts'|e]; [|discriminate].
    simpl in H. injection H as <-. simpl. rewrite (IH ts' eq_refl).
    reflexivity.
Qed.

Lemma sum_strict_inv (l : list (option Q)) (acc t : Q) :
  sum_strict l acc = Py.Ok t -> Forall (fun o => o <> None) l.
Proof.
  revert acc. induction l as [|o l IH]; intros acc H; [constructor|].
  destruct o as [x|]; [|discriminate].
  constructor; [discriminate | exact (IH _ H)].
Qed.

Lemma summary_inv (l : list DamageAssessment) (r : Summary) :
  get_assessment_summary l = Py.Ok r ->
  assessment_count r = List.length l /\
  (l = [] -> max_severity r = None /\ all_damage_types r = []) /\
  (l <> [] ->
   exists x sv,
     In x l /\ severity x = Some sv /\ max_severity r = Some sv /\
     forall y, In y l ->
               (severity_order (severity y)
                <= severity_order (Some sv))%nat) /\
  NoDup (all_damage_types r) /\
  (forall t, In t (all_damage_types r)
             <-> exists x, In x l /\ damage_type x = Some t) /\
  Forall (fun x => estimated_cost_min x <> None /\
                   estimated_cost_max x <> None /\
                   damage_type x <> None) l.
Proof.
  destruct l as [|a rest].
  - intro H. injection H as <-. simpl.
    split; [reflexivity|]. split; [intros _; split; reflexivity|].
    split; [intro H; exfalso; apply H; reflexivity|].
    split; [constructor|]. split; [|constructor].
    intro t. split; [intros [] | intros (x & [] & _)].
  - unfold get_assessment_summary.
    destruct (sum_strict (map estimated_cost_min (a :: rest)) 0)
      as [tmin|e] eqn:Emin; [|discriminate]. cbn [Py.bind].
    destruct (sum_strict (map estimated_cost_max (a :: rest)) 0)
      as [tmax|e] eqn:Emax; [|discriminate]. cbn [Py.bind].
    destruct (values (map damage_type (a :: rest)))
      as [ts|e] eqn:Ety; [|discriminate]. cbn [Py.bind].
    destruct (severity (max_by_severity a rest)) as [sv|] eqn:Esv;
      [|discriminate].
    intro H. injection H as <-.
    cbn [assessment_count max_severity all_damage_types].
    apply values_inv in Ety.
    split; [reflexivity|]. split; [discriminate|].
    split.
    { intros _. exists (max_by_severity a rest), sv.
      split; [apply max_by_severity_in|]. split; [exact Esv|].
      split; [reflexivity|].
      intros y Hy. rewrite <- Esv. apply max_by_severity_max. exact Hy. }
    split; [apply NoDup_nodup|]. split.
    { intro t. rewrite nodup_In. split.
      - intro Ht. apply (in_map Some) in Ht. rewrite <- Ety in Ht.
        apply in_map_iff in Ht. destruct Ht as (x & Hx & Hin).
        exists x. auto.
      - intros (x & Hin & Hx). apply (in_map damage_type) in Hin.
        rewrite Hx, Ety in Hin. apply in_map_iff in Hin.
        destruct Hin as (t' & Ht' & Hin). injection Ht' as <-. exact Hin. }
    apply sum_strict_inv in Emin, Emax.
    rewrite Forall_map in Emin, Emax.
    rewrite Forall_forall in *. intros x Hx.
    split; [exact (Emin x Hx)|]. split; [exact (Emax x Hx)|].
    apply (in_map damage_type) in Hx. rewrite Ety in Hx.
    apply in_map_iff in Hx. destruct Hx as (t & <- & _). discriminate.
Qed.

(** X22.  A summary that is returned counts the stored assessments; its
    maximum severity is the severity of one of them and no assessment has
    a higher one; its damage types are those of the assessments, each
    listed once; with no assessment it is the empty summary.  It is
    returned only when no assessment has a null cost or damage type. *)
Theorem summary_contents (l : list DamageAssessment) (r : Summary) :
  get_assessment_summary l = Py.Ok r ->
  assessment_count r = List.length l /\
  (l = [] -> max_severity r = None /\ all_damage_types r = []) /\
  (l <> [] ->
   exists x sv,
     In x l /\ severity x = Some sv /\ max_severity r = Some sv /\
     forall y, In y l ->
               (severity_order (severity y)
                <= severity_order (Some sv))%nat) /\
  NoDup (all_damage_types r) /\
  (forall t, In t (all_damage_types r)
             <-> exists x, In x l /\ damage_type x = Some t) /\
  Forall (fun x => estimated_cost_min x <> None /\
                   estimated_cost_max x <> None /\
                   damage_type x <> None) l.
Proof. exact (summary_inv l r). Qed.

Lemma summary_contents_witness :
  exists r,
    get_assessment_summary [assessed 1500 3500; assessed 150 500] = Py.Ok r /\
    assessment_count r = 2%nat /\
    NoDup (all_damage_types r).
Proof.
  eexists. split; [reflexivity|].
  pose proof (summary_contents [assessed 1500 3500; assessed 150 500] _
                eq_refl) as H.
  split; [exact (proj1 H) | exact (proj1 (proj2 (proj2 (proj2 H))))].
Defined.

Lemma assessment_of_complete (a : VisionAnalyzer.Analysis) :
  complete (assessment_of a).
Proof. unfold complete, assessment_of. simpl. repeat split; discriminate. Qed.

Lemma assessed_sums (l : list VisionAnalyzer.Analysis) :
  elementwise_sum min_of (map assessment_of l)
  == elementwise_sum VisionAnalyzer.get_cost_min l /\
  elementwise_sum max_of (map assessment_of l)
  == elementwise_sum VisionAnalyzer.get_cost_max l.
Proof.
  induction l as [|a l (IHmin & IHmax)]; [split; reflexivity|].
  simpl. rewrite IHmin, IHmax.
  unfold min_of, max_of, assessment_of.
  cbn [estimated_cost_min estimated_cost_max].
  rewrite !or0_some. split; reflexivity.
Qed.

Lemma summary_of_assessed (analyses : list VisionAnalyzer.Analysis) :
  let successful := filter VisionAnalyzer.success analyses in
  exists r,
    get_assessment_summary (assess_loop analyses) = Py.Ok r /\
    assessment_count r = List.length successful /\
    (assessment_count r <= List.length analyses)%nat /\
    total_cost_estimate_min r
    == elementwise_sum VisionAnalyzer.get_cost_min successful /\
    total_cost_estimate_max r
    == elementwise_sum VisionAnalyzer.get_cost_max successful.
Proof.
  cbv zeta. rewrite assess_loop_spec.
  set (successful := filter VisionAnalyzer.success analyses).
  assert (Hall : Forall complete (map assessment_of successful)).
  { apply Forall_map. apply Forall_forall. intros a _.
    apply assessment_of_complete. }
  destruct (summary_totals _ Hall) as (r & Hr & Hmin & Hmax).
  exists r. split; [exact Hr|].
  destruct (summary_inv _ _ Hr) as (Hcount & _).
  rewrite length_map in Hcount.
  destruct (assessed_sums successful) as (Smin & Smax).
  split; [exact Hcount|]. split.
  - rewrite Hcount. apply filter_length_le.
  - rewrite Hmin, Hmax, Smin, Smax. split; reflexivity.
Qed.


Lemma member_le_sum {A : Type} (f : A -> Q) (l : list A) (x : A) :
  Forall (fun a => 0 <= f a) l -> In x l -> f x <= elementwise_sum f l.
Proof.
  induction 1 as [|a l Ha Hl IH]; intro Hin; [destruct Hin|].
  assert (Hs : 0 <= elementwise_sum f l).
  { clear IH Hin. induction Hl as [|b l Hb _ IHl]; simpl; [lra|lra]. }
  simpl. destruct Hin as [<-|Hin]; [lra|].
  specialize (IH Hin). lra.
Qed.

(** X24.  For cost estimates that are not negative, the range reported
    by the analyzer's own aggregation lies below the totals of the summary
    of the same images: it reports the largest single estimate where the
    summary adds the estimates up. *)
Theorem aggregate_below_summary
        (analyses : list VisionAnalyzer.Analysis)
        (agg : VisionAnalyzer.Aggregated) :
  Forall (fun a => 0 <= VisionAnalyzer.get_cost_min a /\
                   0 <= VisionAnalyzer.get_cost_max a) analyses ->
  VisionAnalyzer._aggregate_analyses analyses = VisionAnalyzer.Success agg ->
  exists r,
    get_assessment_summary (assess_loop analyses) = Py.Ok r /\
    VisionAnalyzer.successful_analyses agg = assessment_count r /\
    VisionAnalyzer.agg_cost_min agg <= total_cost_estimate_min r /\
    VisionAnalyzer.agg_cost_max agg <= total_cost_estimate_max r.
Proof.
  intros Hpos Hagg.
  destruct (summary_of_assessed analyses)
    as (r & Hr & Hcount & _ & Hmin & Hmax).
  cbv zeta in Hcount, Hmin, Hmax.
  exists r. split; [exact Hr|].
  destruct (aggregate_takes_maximum analyses agg Hagg)
    as ((x1 & I1 & E1) & _ & (x2 & I2 & E2) & _).
  cbv zeta in I1, I2.
  assert (Hpos' : Forall (fun a => 0 <= VisionAnalyzer.get_cost_min a /\
                                   0 <= VisionAnalyzer.get_cost_max a)
                         (filter VisionAnalyzer.success analyses)).
  { rewrite Forall_forall in *. intros a Ha.
    apply filter_In in Ha. apply Hpos, Ha. }
  split.
  - rewrite Hcount.
    unfold VisionAnalyzer._aggregate_analyses in Hagg.
    destruct analyses as [|a0 rest0]; [discriminate|].
    destruct (filter VisionAnalyzer.success (a0 :: rest0)) as [|a rest];
      [discriminate|].
    injection Hagg as <-. reflexivity.
  - split.
    + rewrite E1, Hmin. apply member_le_sum; [|exact I1].
      eapply Forall_impl; [|exact Hpos']. intros a Ha. apply Ha.
    + rewrite E2, Hmax. apply member_le_sum; [|exact I2].
      eapply Forall_impl; [|exact Hpos']. intros a Ha. apply Ha.
Qed.

Lemma aggregate_below_summary_witness :
  exists r,
    get_assessment_summary
      (assess_loop [analysis_with 1500 3500; analysis_with 150 500])
      = Py.Ok r /\
    3500 <= total_cost_estimate_max r.
Proof.
  destruct (aggregate_below_summary
              [analysis_with 1500 3500; analysis_with 150 500]
              {| VisionAnalyzer.agg_severity := "MINOR";
                 VisionAnalyzer.agg_cost_min := 1500;
                 VisionAnalyzer.agg_cost_max := 3500;
                 VisionAnalyzer.image_count := 2;
                 VisionAnalyzer.successful_analyses := 2 |})
    as (r & Hr & _ & _ & Hmax).
  - repeat constructor; vm_compute; discriminate.
  - reflexivity.
  - exists r. split; [exact Hr | exact Hmax].
Defined.

End Summary.

(** ** The analyzer's aggregation *)

Section Aggregation.

Import VisionAnalyzer Reference.

Lemma ordered_is_known (s : string) :
  (1 <= severity_order s)%nat -> In s KNOWN_SEVERITIES.
Proof.
  unfold severity_order, KNOWN_SEVERITIES.
  destruct (String.eqb s "MINOR") eqn:E1;
    [apply String.eqb_eq in E1; subst; simpl; tauto|].
  destruct (String.eqb s "MODERATE") eqn:E2;
    [apply String.eqb_eq in E2; subst; simpl; tauto|].
  destruct (String.eqb s "MAJOR") eqn:E3;
    [apply String.eqb_eq in E3; subst; simpl; tauto|].
  destruct (String.eqb s "TOTAL_LOSS") eqn:E4;
    [apply String.eqb_eq in E4; subst; simpl; tauto|].
  lia.
Qed.

Lemma known_is_ordered (s : string) :
  In s KNOWN_SEVERITIES -> (1 <= severity_order s)%nat.
Proof.
  simpl. intros [<-|[<-|[<-|[<-|[]]]]]; vm_compute; lia.
Qed.

Lemma severity_fold (l : list Analysis) (acc : string) :
  In acc KNOWN_SEVERITIES ->
  let m := fold_left severity_step l acc in
  In m KNOWN_SEVERITIES /\
  (severity_order acc <= severity_order m)%nat /\
  (forall a sv, In a l -> severity a = Some sv ->
                (severity_order sv <= severity_order m)%nat) /\
  (m = acc \/ exists a, In a l /\ severity a = Some m).
Proof.
  revert acc. induction l as [|a l IH]; intros acc Hacc; simpl.
  - split; [exact Hacc|]. split; [lia|].
    split; [intros a sv []|left; reflexivity].
  - assert (Hstep : In (severity_step acc a) KNOWN_SEVERITIES /\
                    (severity_order acc
                     <= severity_order (severity_step acc a))%nat /\
                    (forall sv, severity a = Some sv ->
                                (severity_order sv
                                 <= severity_order (severity_step acc a))%nat) /\
                    (severity_step acc a = acc \/
                     severity a = Some (severity_step acc a))).
    { unfold severity_step. destruct (severity a) as [cur|].
      - destruct (severity_order acc <? severity_order cur)%nat eqn:E.
        + apply Nat.ltb_lt in E.
          split; [apply ordered_is_known; lia|]. split; [lia|].
          split; [intros sv H; injection H as <-; lia | right; reflexivity].
        + apply Nat.ltb_ge in E.
          split; [exact Hacc|]. split; [lia|].
          split; [intros sv H; injection H as <-; exact E | left; reflexivity].
      - split; [exact Hacc|]. split; [lia|].
        split; [intros sv H; discriminate | left; reflexivity]. }
    destruct Hstep as (Hk & Hle & Hcur & Hfrom).
    destruct (IH _ Hk) as (Hm & Hge & Hall & Horigin).
    cbv zeta in Hm, Hge, Hall, Horigin.
    split; [exact Hm|]. split; [lia|]. split.
    + intros x sv [<-|Hx] Hsv.
      * specialize (Hcur sv Hsv). lia.
      * exact (Hall x sv Hx Hsv).
    + destruct Horigin as [Heq | (x & Hx & Hsv)].
      * rewrite Heq. destruct Hfrom as [-> | Hsv]; [left; reflexivity|].
        right. exists a. auto.
      * right. exists x. auto.
Qed.

(** X25.  The aggregation answers "no analyses" for an empty list and
    "all failed" when no analysis succeeded; otherwise it counts all the
    images and the successful ones, and its severity is always one of
    MINOR, MODERATE, MAJOR and TOTAL_LOSS, at least as high as the severity
    of every successful analysis, an unknown severity word counting as the
    lowest. *)
Theorem aggregate_outcomes (analyses : list Analysis) :
  let successful := filter success analyses in
  (analyses = [] <-> _aggregate_analyses analyses = NoAnalysesProvided) /\
  (analyses <> [] /\ successful = []
   <-> _aggregate_analyses analyses = AllAnalysesFailed) /\
  (successful <> [] <-> exists r, _aggregate_analyses analyses = Success r) /\
  (forall r,
      _aggregate_analyses analyses = Success r ->
      image_count r = List.length analyses /\
      successful_analyses r = List.length successful /\
      (1 <= successful_analyses r <= image_count r)%nat /\
      In (agg_severity r) KNOWN_SEVERITIES /\
      (forall a sv, In a successful -> severity a = Some sv ->
                    (severity_order sv
                     <= severity_order (agg_severity r))%nat) /\
      (agg_severity r = "MINOR"%string \/
       exists a, In a successful /\ severity a = Some (agg_severity r))).
Proof.
  cbv zeta. unfold _aggregate_analyses.
  destruct analyses as [|a0 rest0].
  - split; [split; reflexivity|].
    split; [split; [intros (H & _); congruence | discriminate]|].
    split; [split; [intro H; exfalso; apply H; reflexivity
                   |intros (r & H); discriminate]|].
    intros r H. discriminate.
  - pose proof (filter_length_le success (a0 :: rest0)) as Hlen.
    destruct (filter success (a0 :: rest0)) as [|a rest] eqn:Ef.
    + split; [split; discriminate|].
      split; [split; [reflexivity | intros _; split; [discriminate|reflexivity]]|].
      split; [split; [intro H; exfalso; apply H; reflexivity
                     |intros (r & H); discriminate]|].
      intros r H. discriminate.
    + split; [split; discriminate|].
      split; [split; [intros (_ & H); discriminate | discriminate]|].
      split; [split; [intros _; eexists; reflexivity | discriminate]|].
      intros r H. injection H as <-.
      cbn [image_count successful_analyses agg_severity].
      split; [reflexivity|]. split; [reflexivity|].
      split; [simpl in *; lia|].
      assert (Hminor : In "MINOR"%string KNOWN_SEVERITIES)
        by (simpl; tauto).
      destruct (severity_fold (a :: rest) "MINOR" Hminor)
        as (Hk & _ & Hall & Horigin).
      cbv zeta in Hk, Hall, Horigin.
      split; [exact Hk|]. split; [exact Hall | exact Horigin].
Qed.

Lemma aggregate_outcomes_witness :
  _aggregate_analyses [Samples.zero_floor_analysis]
  <> AllAnalysesFailed.
Proof.
  intro H.
  apply (proj2 (proj1 (proj2 (aggregate_outcomes
                                [Samples.zero_floor_analysis])))) in H.
  destruct H as (_ & H). discriminate.
Defined.

End Aggregation.

(** ** Stored fraud flags *)

Section FraudFlags.

Import Ingest Draws.

(** X26.  The fraud flags stored for a row are distinct names among the
    four the ingestion knows, at most four of them; the no-corroboration
    flag is stored exactly when neither a witness nor a police report is
    recorded, a missing column counting as "No". *)
Theorem fraud_flags_stored (row : Row) (d : Ingest.Draws) :
  let flags := Models.fraud_flags (generate_fraud_score_from_row row d) in
  NoDup flags /\
  incl flags FLAG_NAMES /\
  (List.length flags <= 4)%nat /\
  (In "no_corroboration"%string flags
   <-> get (WitnessPresent row) "No" = "No"%string /\
       get (PoliceReportFiled row) "No" = "No"%string) /\
  (In "multiple_prior_claims"%string flags
   <-> get (PastNumberOfClaims row) "none" <> "none"%string).
Proof.
  cbv zeta. simpl Models.fraud_flags. unfold fraud_flags_of.
  rewrite <- String.eqb_neq. rewrite <- !String.eqb_eq.
  destruct (String.eqb (get (PastNumberOfClaims row) "none") "none");
    destruct (String.eqb (get (WitnessPresent row) "No") "No");
    destruct (String.eqb (get (PoliceReportFiled row) "No") "No");
    destruct (Str.contains "more than 30" (get (Days_Policy_Claim row) ""));
    destruct (String.eqb (get (AddressChange_Claim row) "no change")
                         "no change");
    cbn [andb app];
    (split; [repeat constructor; simpl; intuition discriminate|]);
    (split; [intros x Hx; simpl in Hx; simpl; intuition auto|]);
    (split; [simpl; lia|]);
    simpl; split; split; intros;
    repeat match goal with
           | H : _ /\ _ |- _ => destruct H
           | H : _ \/ _ |- _ => destruct H
           | H : False |- _ => destruct H
           end;
    try discriminate; try congruence; auto.
Qed.

End FraudFlags.
